(** * OIDC identity provider (authn/idprovider/oidc/provider.go)

    A shallow embedding of [OIDCProvider] and its three operations
    [AuthCodeURL], [AuthenticateCode] and [Authenticate].

    The Go code talks to four libraries (golang.org/x/oauth2, coreos/go-oidc,
    golang-jwt/jwt and net/http with encoding/json).  Calls that reach the
    network are fields of an environment record [Env], which also holds the
    clock; the pure library functions whose result the properties depend on
    (json.Unmarshal into a map, jwt.MapClaims.Valid, oauth2.Token.Extra,
    oauth2.Config.AuthCodeURL, url.Values.Encode, url.QueryEscape,
    strings.Contains, strings.Join) are written out after their documented
    behaviour, each in a module named after its package. *)

From Stdlib Require Import ZArith Ascii String List Bool.
From stdpp Require Import base strings gmap list fin_maps.

Local Open Scope string_scope.
Local Set Warnings "-register-all".

(** ** Go values *)

(** A value held in an [interface{}] after JSON decoding.  Numbers are
    restricted to integral ones; only the time checks of the jwt library
    look inside a number. *)
Inductive Value : Type :=
| VNil
| VBool (b : bool)
| VNumber (n : Z)
| VString (s : string)
| VArray (elems : list Value)
| VObject (fields : list (string * Value)).

(** A Go [error]: made by [errors.New], or by [fmt.Errorf] with a message
    followed by [": %w"], which wraps a cause. *)
Inductive error : Type :=
| errors_New (text : string)
| fmt_Errorf_w (message : string) (cause : error).

(** [err.Error()] *)
Fixpoint Error (err : error) : string :=
  match err with
  | errors_New text => text
  | fmt_Errorf_w message cause => message +:+ ": " +:+ Error cause
  end.

(** What a call does: it returns a value, returns a non-nil error, panics
    (nil dereference), or never returns (a peer that does not answer). *)
Inductive Outcome (A : Type) : Type :=
| Returns (a : A)
| Fails (err : error)
| Panics
| Blocks.
Arguments Returns {A} a.
Arguments Fails {A} err.
Arguments Panics {A}.
Arguments Blocks {A}.

Definition dquote : ascii := Eval cbv in ascii_of_nat 34.

(** [s] between two double-quote characters. *)
Definition quoted (s : string) : string :=
  String dquote (s +:+ String dquote EmptyString).

(** ** Library types *)

Module http.
(** [http.Client] as far as the code configures it:
    [Transport.TLSClientConfig.InsecureSkipVerify]. *)
Record Client : Type := { InsecureSkipVerify : bool }.
End http.

Module context.
Inductive Key : Type := oauth2_HTTPClient.

(** [context.Context].  The code under study builds only [TODO] and
    [WithValue]; [WithCancel] and [WithDeadline] describe the contexts a
    caller could hold.  The flag says whether the context is canceled
    (its deadline passes) while a call made under it is in flight. *)
Inductive Context : Type :=
| TODO
| WithValue (parent : Context) (key : Key) (val : http.Client)
| WithCancel (parent : Context) (canceled : bool)
| WithDeadline (parent : Context) (expired : bool).

(** [ctx.Done() != nil]: the context can be canceled at all. *)
Fixpoint cancelable (ctx : Context) : bool :=
  match ctx with
  | TODO => false
  | WithValue parent _ _ => cancelable parent
  | WithCancel _ _ => true
  | WithDeadline _ _ => true
  end.

(** [ctx.Done()] is closed during the call. *)
Fixpoint done (ctx : Context) : bool :=
  match ctx with
  | TODO => false
  | WithValue parent _ _ => done parent
  | WithCancel parent canceled => canceled || done parent
  | WithDeadline parent expired => expired || done parent
  end.

(** [ctx.Value(key)] *)
Fixpoint Value (ctx : Context) (key : Key) : option http.Client :=
  match ctx with
  | TODO => None
  | WithValue parent oauth2_HTTPClient val =>
      match key with oauth2_HTTPClient => Some val end
  | WithCancel parent _ => Value parent key
  | WithDeadline parent _ => Value parent key
  end.

Definition Canceled : error := errors_New "context canceled".
End context.

Module json.
(** A byte slice as encoding/json reads it: not valid JSON, or the text
    of one JSON value. *)
Inductive Document : Type :=
| Malformed
| Denotes (v : Value).

Definition SyntaxError : error :=
  errors_New "invalid character looking for beginning of value".
Definition UnmarshalTypeError : error :=
  errors_New "json: cannot unmarshal value into Go value of type jwt.MapClaims".

(** The member loop of the decoder on a map: each member is stored under
    its key, in the order of the text. *)
Definition store (m : gmap string Value) (fields : list (string * Value))
  : gmap string Value :=
  fold_left (fun acc kv => <[kv.1 := kv.2]> acc) fields m.

(** [json.Unmarshal(data, &claims)] for a map [claims]: a JSON object is
    decoded into the existing map (a nil map is allocated first), the JSON
    null sets the map to nil, every other value is a type error and leaves
    the map as it was.  A nil map reads like the empty one. *)
Definition Unmarshal (data : Document) (claims : gmap string Value)
  : error + gmap string Value :=
  match data with
  | Malformed => inl SyntaxError
  | Denotes (VObject fields) => inr (store claims fields)
  | Denotes VNil => inr ∅
  | Denotes _ => inl UnmarshalTypeError
  end.
End json.

Module jwt.
(** [jwt.MapClaims], a [map[string]interface{}]. *)
Abbreviation MapClaims := (gmap string Value).

(** [int64(f)] for a float64 [f] of integral value [n]: [n] itself when
    it fits, and the smallest int64 when it does not (what amd64 gives). *)
Definition int64_of_float (n : Z) : Z :=
  if ((- 2 ^ 63 <=? n) && (n <? 2 ^ 63))%Z then n else (- 2 ^ 63)%Z.

(** [verifyExp], [verifyIat], [verifyNbf] *)
Definition verifyExp (exp now : Z) (required : bool) : bool :=
  if (exp =? 0)%Z then negb required else (now <=? exp)%Z.
Definition verifyIat (iat now : Z) (required : bool) : bool :=
  if (iat =? 0)%Z then negb required else (iat <=? now)%Z.
Definition verifyNbf (nbf now : Z) (required : bool) : bool :=
  if (nbf =? 0)%Z then negb required else (nbf <=? now)%Z.

(** [m.VerifyExpiresAt(cmp, req)], [m.VerifyIssuedAt(cmp, req)] and
    [m.VerifyNotBefore(cmp, req)]: an absent claim passes unless it is
    required, a number is compared, any other value fails. *)
Definition verifyClaim (verify : Z -> Z -> bool -> bool) (key : string)
    (m : MapClaims) (cmp : Z) (req : bool) : bool :=
  match m !! key with
  | None => negb req
  | Some (VNumber f) => verify (int64_of_float f) cmp req
  | Some _ => false
  end.
Definition VerifyExpiresAt := verifyClaim verifyExp "exp".
Definition VerifyIssuedAt := verifyClaim verifyIat "iat".
Definition VerifyNotBefore := verifyClaim verifyNbf "nbf".

(** [m.Valid()] of version 3.2 at the clock [now] ([TimeFunc().Unix()]):
    the three checks in turn; the error carries the message of the last
    check that failed, [None] is the nil error. *)
Definition Valid (now : Z) (m : MapClaims) : option error :=
  let inner : option error := None in
  let inner := if negb (VerifyExpiresAt m now false)
               then Some (errors_New "Token is expired") else inner in
  let inner := if negb (VerifyIssuedAt m now false)
               then Some (errors_New "Token used before issued") else inner in
  let inner := if negb (VerifyNotBefore m now false)
               then Some (errors_New "Token is not valid yet") else inner in
  inner.
End jwt.

Module strings.
(** [strings.Contains(s, substr)] *)
Fixpoint Contains (s substr : string) : bool :=
  String.prefix substr s
  || match s with
     | EmptyString => false
     | String _ rest => Contains rest substr
     end.

(** [strings.Join(elems, sep)] *)
Definition Join (elems : list string) (sep : string) : string :=
  String.concat sep elems.
End strings.

Module url.
(** [shouldEscape(c, encodeQueryComponent)]: letters, digits and the four
    marks pass, every other byte is escaped. *)
Definition shouldEscape (c : ascii) : bool :=
  let n := nat_of_ascii c in
  if ((97 <=? n) && (n <=? 122) || (65 <=? n) && (n <=? 90)
      || (48 <=? n) && (n <=? 57))%nat then false
  else if (Ascii.eqb c "-" || Ascii.eqb c "_" || Ascii.eqb c "."
           || Ascii.eqb c "~")%char then false
  else true.

(** ["0123456789ABCDEF"[d]] *)
Definition upperhex (d : nat) : ascii :=
  if (d <? 10)%nat then ascii_of_nat (48 + d) else ascii_of_nat (55 + d).

(** What the second loop of [escape] writes for the byte [c]. *)
Definition escape_byte (c : ascii) : string :=
  if Ascii.eqb c " "%char then "+"
  else if shouldEscape c then
    String "%" (String (upperhex (nat_of_ascii c / 16))
                  (String (upperhex (nat_of_ascii c mod 16)) EmptyString))
  else String c EmptyString.

(** [url.QueryEscape(s)] *)
Fixpoint QueryEscape (s : string) : string :=
  match s with
  | EmptyString => EmptyString
  | String c rest => escape_byte c +:+ QueryEscape rest
  end.

(** [unhex(c)], on digits and both cases of a-f. *)
Definition unhex (c : ascii) : option nat :=
  let n := nat_of_ascii c in
  if ((48 <=? n) && (n <=? 57))%nat then Some (n - 48)
  else if ((97 <=? n) && (n <=? 102))%nat then Some (n - 97 + 10)
  else if ((65 <=? n) && (n <=? 70))%nat then Some (n - 65 + 10)
  else None.

(** [url.QueryUnescape(s)]; [None] is an [EscapeError]. *)
Fixpoint QueryUnescape (s : string) : option string :=
  match s with
  | EmptyString => Some EmptyString
  | String c rest =>
      if Ascii.eqb c "%"%char then
        match rest with
        | String hi (String lo rest') =>
            match unhex hi, unhex lo with
            | Some h, Some l =>
                option_map (String (ascii_of_nat (16 * h + l)))
                           (QueryUnescape rest')
            | _, _ => None
            end
        | _ => None
        end
      else if Ascii.eqb c "+"%char then option_map (String " ") (QueryUnescape rest)
      else option_map (String c) (QueryUnescape rest)
  end.

(** [url.Values], a [map[string][]string], held in the order of its keys,
    the order in which [Encode] writes it. *)
Definition Values : Type := list (string * list string).

(** [v.Set(key, value)] *)
Fixpoint Values_Set (key value : string) (v : Values) : Values :=
  match v with
  | [] => [(key, [value])]
  | (k, vs) :: rest =>
      match String.compare key k with
      | Lt => (key, [value]) :: (k, vs) :: rest
      | Eq => (key, [value]) :: rest
      | Gt => (k, vs) :: Values_Set key value rest
      end
  end.

(** [v.Get(key)]: the first value of the key, the empty string when the
    key is absent or holds no value. *)
Fixpoint Values_Get (key : string) (v : Values) : string :=
  match v with
  | [] => EmptyString
  | (k, vs) :: rest =>
      if String.eqb key k then
        match vs with
        | [] => EmptyString
        | value :: _ => value
        end
      else Values_Get key rest
  end.

(** The body of the inner loop of [Encode]. *)
Definition write_pair (keyEscaped : string) (buf value : string) : string :=
  (match buf with
   | EmptyString => buf
   | _ => buf +:+ "&"
   end) +:+ keyEscaped +:+ "=" +:+ QueryEscape value.

(** [v.Encode()] *)
Definition Values_Encode (v : Values) : string :=
  fold_left (fun buf kvs => fold_left (write_pair (QueryEscape kvs.1)) kvs.2 buf)
            v EmptyString.
End url.

Module oauth2.
(** [oauth2.Config] with [Endpoint.AuthURL] and [Endpoint.TokenURL]
    flattened. *)
Record Config : Type := {
  ClientID : string;
  ClientSecret : string;
  AuthURL : string;
  TokenURL : string;
  RedirectURL : string;
  Scopes : list string
}.

(** What a token keeps of the token response in [t.raw]: the object of a
    JSON response (a [map[string]interface{}]), the values of a
    form-encoded or plain-text response (a [url.Values]), or nothing.
    [numeric] holds the form values that strconv reads as a number
    ([ParseInt] for a trimmed value without a dot, [ParseFloat] for one
    with a single dot), each with that number. *)
Inductive RawToken : Type :=
| RawJSON (fields : gmap string Value)
| RawForm (vals : url.Values) (numeric : gmap string Value)
| RawNone.

(** [oauth2.Token]: the access token and the raw token response that
    [Extra] reads. *)
Record Token : Type := {
  AccessToken : string;
  raw : RawToken
}.

(** [token.Extra(key)].  From a JSON response: the member, nil when the
    key is absent.  From a form-encoded response: [vals.Get(key)], as a
    number when strconv reads it as one, else as the string it is; an
    absent key gives the empty string, which is no number.  Nil when
    nothing was kept. *)
Definition Extra (t : Token) (key : string) : Value :=
  match raw t with
  | RawJSON fields => default VNil (fields !! key)
  | RawForm vals numeric =>
      let v := url.Values_Get key vals in
      match v with
      | EmptyString => VString v
      | _ => default (VString v) (numeric !! v)
      end
  | RawNone => VNil
  end.

(** [oauth2.AuthCodeOption], made by [oauth2.SetAuthURLParam(key, value)]. *)
Record AuthCodeOption : Type := SetAuthURLParam {
  key : string;
  value : string
}.

(** [opt.setValue(v)] *)
Definition setValue (opt : AuthCodeOption) (v : url.Values) : url.Values :=
  url.Values_Set (key opt) (value opt) v.

(** The parameters [v] that [c.AuthCodeURL(state, opts...)] collects. *)
Definition authCodeValues (c : Config) (state : string)
    (opts : list AuthCodeOption) : url.Values :=
  let v : url.Values :=
    [("client_id", [ClientID c]); ("response_type", ["code"])] in
  let v := if negb (String.eqb (RedirectURL c) "")
           then url.Values_Set "redirect_uri" (RedirectURL c) v else v in
  let v := if (0 <? length (Scopes c))%nat
           then url.Values_Set "scope" (strings.Join (Scopes c) " ") v else v in
  let v := if negb (String.eqb state "")
           then url.Values_Set "state" state v else v in
  fold_left (fun v opt => setValue opt v) opts v.

(** [c.AuthCodeURL(state, opts...)]: the authorization endpoint, then ["?"]
    (["&"] when the endpoint already has a query), then the encoded
    parameters. *)
Definition AuthCodeURL (c : Config) (state : string)
    (opts : list AuthCodeOption) : string :=
  AuthURL c
  +:+ (if strings.Contains (AuthURL c) "?" then "&" else "?")
  +:+ url.Values_Encode (authCodeValues c state opts).
End oauth2.

Module oidc.
(** [*oidc.Provider] and [*oidc.IDTokenVerifier] are opaque handles; the
    environment decides what calls through them do. *)
Record Provider : Type := { issuer : string }.
Record IDTokenVerifier : Type := { audience : string }.

(** [oidc.IDToken] and [oidc.UserInfo] keep the raw claims; nil is
    [None]. *)
Record IDToken : Type := { id_claims : option json.Document }.
Record UserInfo : Type := { ui_claims : option json.Document }.

Definition claims_not_set : error := errors_New "oidc: claims not set".

(** [oidc.Nonce(nonce)] *)
Definition Nonce (nonce : string) : oauth2.AuthCodeOption :=
  oauth2.SetAuthURLParam "nonce" nonce.

(** [idToken.Claims(&claims)] and [userInfo.Claims(&claims)] *)
Definition Claims (raw : option json.Document) (claims : jwt.MapClaims)
  : error + jwt.MapClaims :=
  match raw with
  | None => inl claims_not_set
  | Some data => json.Unmarshal data claims
  end.
End oidc.

Module net_http.
(** [http.Response]: the status code, and what reading [Body] to its end
    ([ioutil.ReadAll]) gives. *)
Record Response : Type := {
  StatusCode : Z;
  Body : Outcome json.Document
}.
End net_http.

(** ** The environment *)

(** The calls of [AuthenticateCode] that leave the process, and the clock.
    [Exchange], [Verify], [UserInfo] and [Get] take the context the code
    hands them. *)
Record Env : Type := {
  (** [o.OAuth2Config.Exchange(ctx, code)] *)
  Exchange : context.Context -> oauth2.Config -> string -> Outcome oauth2.Token;
  (** [o.Verifier.Verify(ctx, rawIDToken)] *)
  Verify : oidc.IDTokenVerifier -> context.Context -> string -> Outcome oidc.IDToken;
  (** [new(jwt.Parser).ParseUnverified(rawIDToken, &claims)]: the error, or
      the claims it leaves in [claims]. *)
  ParseUnverified : string -> error + jwt.MapClaims;
  (** [jwt.TimeFunc().Unix()]: the clock that [claims.Valid()] reads, in
      seconds. *)
  Now : Z;
  (** [o.Provider.UserInfo(ctx, oauth2.StaticTokenSource(token))].  The
      library returns a [UserInfo] only after it has decoded the body
      into its own struct, whose [sub], [profile] and [email] are strings:
      a body it cannot decode that way, such as an object whose [sub] is a
      number, comes back as an error of the call.  The field ranges over
      more results than the library gives; what is proved for every
      environment holds for the library's, and a property that needs a
      body the library refuses is stated for the direct request only. *)
  UserInfo : oidc.Provider -> context.Context -> oauth2.Token -> Outcome oidc.UserInfo;
  (** [oauth2.NewClient(ctx, oauth2.StaticTokenSource(token)).Get(url)] *)
  Get : context.Context -> oauth2.Token -> string -> Outcome net_http.Response
}.

(** [claims.Valid()]: the time-based checks of the jwt library at the
    clock of the environment; [None] is a nil error. *)
Definition Valid (env : Env) (claims : jwt.MapClaims) : option error :=
  jwt.Valid (Now env) claims.

(** One entry of the log of library calls made by an operation. *)
Inductive Call : Type :=
| CallExchange (ctx : context.Context) (code : string)
| CallVerify (ctx : context.Context) (rawIDToken : string)
| CallParseUnverified (rawIDToken : string)
| CallUserInfo (ctx : context.Context) (token : oauth2.Token)
| CallGet (ctx : context.Context) (token : oauth2.Token) (url : string).


(** The context a network call was made under. *)
Definition call_context (c : Call) : option context.Context :=
  match c with
  | CallExchange ctx _ | CallVerify ctx _ | CallUserInfo ctx _ | CallGet ctx _ _ => Some ctx
  | CallParseUnverified _ => None
  end.

(** ** Computations: a log of calls and an outcome *)

Definition M (A : Type) : Type := list Call -> list Call * Outcome A.

Definition ret {A} (a : A) : M A := fun log => (log, Returns a).
Definition fail {A} (err : error) : M A := fun log => (log, Fails err).
Definition panic {A} : M A := fun log => (log, Panics).

Definition bind {A B} (m : M A) (k : A -> M B) : M B :=
  fun log =>
    match m log with
    | (log', Returns a) => k a log'
    | (log', Fails err) => (log', Fails err)
    | (log', Panics) => (log', Panics)
    | (log', Blocks) => (log', Blocks)
    end.

Notation "'let*' x ':=' m 'in' k" := (bind m (fun x => k))
  (at level 10, x name, m at level 100, k at level 200).

(** A library call: logged, then its outcome. *)
Definition call {A} (c : Call) (r : Outcome A) : M A :=
  fun log => ((log ++ [c])%list, r).

(** [if err != nil { return nil, fmt.Errorf(message + ": %w", err) }] *)
Definition wrap {A} (message : string) (m : M A) : M A :=
  fun log =>
    match m log with
    | (log', Fails err) => (log', Fails (fmt_Errorf_w message err))
    | r => r
    end.

(** A pure call returning [(value, error)]. *)
Definition lift {A} (r : error + A) : M A :=
  match r with
  | inl err => fail err
  | inr a => ret a
  end.

(** [ioutil.ReadAll(resp.Body)] *)
Definition ioutil_ReadAll (body : Outcome json.Document) : M json.Document :=
  fun log => (log, body).

(** Runs an operation from an empty log. *)
Definition run {A} (m : M A) : list Call * Outcome A := m [].

(** ** provider.go *)

(** lines 84-99 *)
Record endpoint : Type := {
  AuthURL : string;
  TokenURL : string;
  UserInfoURL : string;
  JWKSURL : string;
  EndSessionURL : string
}.

(** lines 36-76 *)
Record OIDCProvider : Type := {
  Issuer : string;
  ClientID : string;
  ClientSecret : string;
  Endpoint : endpoint;
  RedirectURL : string;
  Scopes : list string;
  GetUserInfo : bool;
  InsecureSkipVerify : bool;
  EmailKey : string;
  PreferredUsernameKey : string;
  Provider : option oidc.Provider;
  OAuth2Config : option oauth2.Config;
  Verifier : option oidc.IDTokenVerifier
}.

(** The composite literal of lines 188-192; the struct is declared in
    another file of the package. *)
Record oidcIdentity : Type := {
  Sub : string;
  PreferredUsername : string;
  Email : string
}.

(** [v, ok := claims[key].(string)] *)
Definition string_claim (claims : jwt.MapClaims) (key : string) : string * bool :=
  match claims !! key with
  | Some (VString s) => (s, true)
  | _ => ("", false)
  end.

(** [v, ok := token.Extra(key).(string)] *)
Definition string_extra (token : oauth2.Token) (key : string) : string * bool :=
  match oauth2.Extra token key with
  | VString s => (s, true)
  | _ => ("", false)
  end.

(** lines 103-113: the context of every call. *)
Definition requestContext (o : OIDCProvider) : context.Context :=
  let ctx := context.TODO in
  if InsecureSkipVerify o then
    let client := {| http.InsecureSkipVerify := true |} in
    context.WithValue ctx context.oauth2_HTTPClient client
  else ctx.

(** lines 78-80 *)
Definition AuthCodeURL (o : OIDCProvider) (state nonce : string) : M string :=
  match OAuth2Config o with
  | None => panic
  | Some config => ret (oauth2.AuthCodeURL config state [oidc.Nonce nonce])
  end.

(** lines 165-192: the identity read off the final claims. *)
Definition identityOf (o : OIDCProvider) (claims : jwt.MapClaims)
  : error + oidcIdentity :=
  let '(subject, ok) := string_claim claims "sub" in
  if negb ok then inl (errors_New ("missing required claim " +:+ quoted "sub"))
  else
    let emailKey := "email" in
    let emailKey := if negb (String.eqb (EmailKey o) "") then EmailKey o else emailKey in
    let email := fst (string_claim claims emailKey) in
    let preferredUsernameKey := "preferred_username" in
    let preferredUsernameKey :=
      if negb (String.eqb (PreferredUsernameKey o) "")
      then PreferredUsernameKey o else preferredUsernameKey in
    let preferredUsername := fst (string_claim claims preferredUsernameKey) in
    let preferredUsername :=
      if String.eqb preferredUsername "" then fst (string_claim claims "name")
      else preferredUsername in
    inr {| Sub := subject;
           PreferredUsername := preferredUsername;
           Email := email |}.

Section Operations.
Variable env : Env.

(** lines 122-139: the claims of the identity token. *)
Definition idTokenClaims (o : OIDCProvider) (ctx : context.Context)
    (rawIDToken : string) : M jwt.MapClaims :=
  let claims : jwt.MapClaims := ∅ in
  match Verifier o with
  | Some verifier =>
      let* idToken := wrap "failed to verify id token"
                        (call (CallVerify ctx rawIDToken)
                              (Verify env verifier ctx rawIDToken)) in
      wrap "failed to decode id token claims"
           (lift (oidc.Claims (oidc.id_claims idToken) claims))
  | None =>
      let* claims := wrap "failed to decode id token claims"
                       (call (CallParseUnverified rawIDToken)
                             (match ParseUnverified env rawIDToken with
                              | inl err => Fails err
                              | inr claims => Returns claims
                              end)) in
      match Valid env claims with
      | Some err => fail (fmt_Errorf_w "failed to verify id token" err)
      | None => ret claims
      end
  end.

(** lines 140-163: the claims after the optional userinfo request. *)
Definition userInfoClaims (o : OIDCProvider) (ctx : context.Context)
    (token : oauth2.Token) (claims : jwt.MapClaims) : M jwt.MapClaims :=
  if GetUserInfo o then
    match Provider o with
    | Some provider =>
        let* userInfo := wrap "failed to fetch userinfo"
                           (call (CallUserInfo ctx token)
                                 (UserInfo env provider ctx token)) in
        wrap "failed to decode userinfo claims"
             (lift (oidc.Claims (oidc.ui_claims userInfo) claims))
    | None =>
        let url := UserInfoURL (Endpoint o) in
        let* resp := wrap "failed to fetch userinfo"
                       (call (CallGet ctx token url) (Get env ctx token url)) in
        let* data := wrap "failed to fetch userinfo"
                       (ioutil_ReadAll (net_http.Body resp)) in
        wrap "failed to decode userinfo claims"
             (lift (json.Unmarshal data claims))
    end
  else ret claims.

(** lines 103-163: everything before the identity is read off. *)
Definition resolveClaims (o : OIDCProvider) (code : string) : M jwt.MapClaims :=
  let ctx := requestContext o in
  match OAuth2Config o with
  | None => panic
  | Some config =>
      let* token := wrap "oidc: failed to get token"
                      (call (CallExchange ctx code) (Exchange env ctx config code)) in
      let '(rawIDToken, ok) := string_extra token "id_token" in
      if negb ok then fail (errors_New "no id_token in token response")
      else
        let* claims := idTokenClaims o ctx rawIDToken in
        userInfoClaims o ctx token claims
  end.

(** lines 102-194 *)
Definition AuthenticateCode (o : OIDCProvider) (code : string) : M oidcIdentity :=
  let* claims := resolveClaims o code in
  lift (identityOf o claims).

(** lines 197-199 *)
Definition Authenticate (o : OIDCProvider) (username password : string)
  : M oidcIdentity :=
  fail (errors_New "unsupported authenticate with username password").

End Operations.

(** ** What the properties speak of *)

(** The call that yields the identity-token claims. *)
Definition claims_call (o : OIDCProvider) (ctx : context.Context)
    (rawIDToken : string) : Call :=
  match Verifier o with
  | Some _ => CallVerify ctx rawIDToken
  | None => CallParseUnverified rawIDToken
  end.

(** The userinfo request, when enabled. *)
Definition userinfo_calls (o : OIDCProvider) (ctx : context.Context)
    (token : oauth2.Token) : list Call :=
  if GetUserInfo o then
    match Provider o with
    | Some _ => [CallUserInfo ctx token]
    | None => [CallGet ctx token (UserInfoURL (Endpoint o))]
    end
  else [].

(** Every call was made under [ctx]. *)
Definition made_under (ctx : context.Context) (log : list Call) : Prop :=
  Forall (fun c => forall ctx', call_context c = Some ctx' -> ctx' = ctx) log.

(** The body of a userinfo response that arrived and was read to its end,
    through the provider object or by the direct request. *)
Definition userinfo_body (env : Env) (o : OIDCProvider) (ctx : context.Context)
    (token : oauth2.Token) : option json.Document :=
  match Provider o with
  | Some provider =>
      match UserInfo env provider ctx token with
      | Returns userInfo => oidc.ui_claims userInfo
      | _ => None
      end
  | None =>
      match Get env ctx token (UserInfoURL (Endpoint o)) with
      | Returns resp =>
          match net_http.Body resp with
          | Returns data => Some data
          | _ => None
          end
      | _ => None
      end
  end.

(** The key in force: the override when it is set, else the default. *)
Definition key_in_force (override default key : string) : Prop :=
  (override <> "" /\ key = override) \/ (override = "" /\ key = default).

(** The two messages of the userinfo stage. *)
Definition userinfo_error (err : error) : Prop :=
  exists cause,
    err = fmt_Errorf_w "failed to fetch userinfo" cause
    \/ err = fmt_Errorf_w "failed to decode userinfo claims" cause.

(** The environment in which every userinfo response of the direct
    request carries the status code [status], all else equal. *)
Definition with_status (status : Z) (env : Env) : Env :=
  {| Exchange := Exchange env;
     Verify := Verify env;
     ParseUnverified := ParseUnverified env;
     Now := Now env;
     UserInfo := UserInfo env;
     Get := fun ctx token url =>
       match Get env ctx token url with
       | Returns resp =>
           Returns {| net_http.StatusCode := status;
                      net_http.Body := net_http.Body resp |}
       | r => r
       end |}.

(** What C2 asks of [AuthenticateCode]: whenever the caller's context is
    done and the library aborts an exchange made under that context, the
    call returns a "failed to get token" error. *)
Definition honors_calling_context : Prop :=
  forall env caller o config code,
    OAuth2Config o = Some config ->
    context.done caller = true ->
    (exists cause, Exchange env caller config code = Fails cause) ->
    exists cause,
      snd (run (AuthenticateCode env o code))
      = Fails (fmt_Errorf_w "oidc: failed to get token" cause).

(** A string of bytes that [QueryEscape] leaves alone. *)
Fixpoint unreserved (s : string) : bool :=
  match s with
  | EmptyString => true
  | String c rest => negb (url.shouldEscape c) && unreserved rest
  end.

(** The shape of what [escape] writes for one byte, as a check that can
    be run on each of the 256 bytes. *)
Definition escape_byte_ok (c : ascii) : bool :=
  match url.escape_byte c with
  | String a EmptyString =>
      (Ascii.eqb c " " && Ascii.eqb a "+")
      || (Ascii.eqb a c && negb (Ascii.eqb c "%") && negb (Ascii.eqb c "+"))
  | String p (String hi (String lo EmptyString)) =>
      Ascii.eqb p "%"
      && match url.unhex hi, url.unhex lo with
         | Some h, Some l => Ascii.eqb (ascii_of_nat (16 * h + l)) c
         | _, _ => false
         end
  | _ => false
  end%char.

(** What C9 asks of the URL for a given state and nonce: both occur in it
    character for character. *)
Definition embeds_verbatim (url state nonce : string) : bool :=
  strings.Contains url state && strings.Contains url nonce.

(** ** Sample data *)

Module Sample.

Definition config : oauth2.Config :=
  {| oauth2.ClientID := "app";
     oauth2.ClientSecret := "secret";
     oauth2.AuthURL := "https://idp.example/auth";
     oauth2.TokenURL := "https://idp.example/token";
     oauth2.RedirectURL := "https://app.example/cb";
     oauth2.Scopes := ["openid"; "email"] |}.

Definition endpoints : endpoint :=
  {| AuthURL := "https://idp.example/auth";
     TokenURL := "https://idp.example/token";
     UserInfoURL := "https://idp.example/userinfo";
     JWKSURL := "";
     EndSessionURL := "" |}.

(** No discovery: neither a provider object nor a verifier. *)
Definition plain : OIDCProvider :=
  {| Issuer := "";
     ClientID := "app";
     ClientSecret := "secret";
     Endpoint := endpoints;
     RedirectURL := "https://app.example/cb";
     Scopes := ["openid"; "email"];
     GetUserInfo := false;
     InsecureSkipVerify := false;
     EmailKey := "";
     PreferredUsernameKey := "";
     Provider := None;
     OAuth2Config := Some config;
     Verifier := None |}.

Definition with_userinfo (o : OIDCProvider) : OIDCProvider :=
  {| Issuer := Issuer o; ClientID := ClientID o; ClientSecret := ClientSecret o;
     Endpoint := Endpoint o; RedirectURL := RedirectURL o; Scopes := Scopes o;
     GetUserInfo := true; InsecureSkipVerify := InsecureSkipVerify o;
     EmailKey := EmailKey o; PreferredUsernameKey := PreferredUsernameKey o;
     Provider := Provider o; OAuth2Config := OAuth2Config o;
     Verifier := Verifier o |}.

Definition with_email_key (key : string) (o : OIDCProvider) : OIDCProvider :=
  {| Issuer := Issuer o; ClientID := ClientID o; ClientSecret := ClientSecret o;
     Endpoint := Endpoint o; RedirectURL := RedirectURL o; Scopes := Scopes o;
     GetUserInfo := GetUserInfo o; InsecureSkipVerify := InsecureSkipVerify o;
     EmailKey := key; PreferredUsernameKey := PreferredUsernameKey o;
     Provider := Provider o; OAuth2Config := OAuth2Config o;
     Verifier := Verifier o |}.

(** Discovery succeeded: provider object and verifier are set. *)
Definition discovered : OIDCProvider :=
  {| Issuer := "https://idp.example";
     ClientID := "app";
     ClientSecret := "secret";
     Endpoint := endpoints;
     RedirectURL := "https://app.example/cb";
     Scopes := ["openid"; "email"];
     GetUserInfo := true;
     InsecureSkipVerify := true;
     EmailKey := "";
     PreferredUsernameKey := "";
     Provider := Some {| oidc.issuer := "https://idp.example" |};
     OAuth2Config := Some config;
     Verifier := Some {| oidc.audience := "app" |} |}.

Definition token_of (idToken : Value) : oauth2.Token :=
  {| oauth2.AccessToken := "at-1";
     oauth2.raw := oauth2.RawJSON
                     {[ "access_token" := VString "at-1";
                        "id_token" := idToken ]} |}.

Definition alice : list (string * Value) :=
  [("sub", VString "u-1"); ("name", VString "Alice"); ("exp", VNumber 2000)].

Definition stale : list (string * Value) :=
  [("sub", VString "u-1"); ("exp", VNumber 500)].

(** Claims whose [exp] is 0, the first second of 1970. *)
Definition epoch : list (string * Value) :=
  [("sub", VString "u-1"); ("exp", VNumber 0)].

(** A form-encoded token response without [id_token]. *)
Definition form_token : oauth2.Token :=
  {| oauth2.AccessToken := "at-1";
     oauth2.raw := oauth2.RawForm [("access_token", ["at-1"]);
                                   ("token_type", ["bearer"])] ∅ |}.

(** An upstream at clock 1000.  The code selects the token response, the
    identity token selects its payload. *)
Definition env : Env :=
  {| Exchange := fun _ _ code =>
       if String.eqb code "c-alice" then Returns (token_of (VString "h.alice.s"))
       else if String.eqb code "c-stale" then Returns (token_of (VString "h.stale.s"))
       else if String.eqb code "c-forged" then Returns (token_of (VString "h.alice.x"))
       else if String.eqb code "c-garbled" then Returns (token_of (VString "garbled"))
       else if String.eqb code "c-bare" then
         Returns {| oauth2.AccessToken := "at-1";
                    oauth2.raw := oauth2.RawJSON
                                    {[ "access_token" := VString "at-1" ]} |}
       else if String.eqb code "c-epoch" then Returns (token_of (VString "h.epoch.s"))
       else if String.eqb code "c-form" then Returns form_token
       else if String.eqb code "c-number" then Returns (token_of (VNumber 7))
       else Fails (errors_New "oauth2: cannot fetch token: 400 Bad Request");
     Verify := fun _ _ rawIDToken =>
       if String.eqb rawIDToken "h.alice.s" then
         Returns {| oidc.id_claims := Some (json.Denotes (VObject alice)) |}
       else Fails (errors_New "failed to verify signature");
     ParseUnverified := fun rawIDToken =>
       if String.eqb rawIDToken "h.alice.s" then inr (json.store ∅ alice)
       else if String.eqb rawIDToken "h.alice.x" then inr (json.store ∅ alice)
       else if String.eqb rawIDToken "h.stale.s" then inr (json.store ∅ stale)
       else if String.eqb rawIDToken "h.epoch.s" then inr (json.store ∅ epoch)
       else inl (errors_New "token contains an invalid number of segments");
     Now := 1000;
     UserInfo := fun _ _ _ =>
       Returns {| oidc.ui_claims :=
                    Some (json.Denotes (VObject [("sub", VString "u-1");
                                                 ("name", VString "Alice A.");
                                                 ("mail", VString "a@b.com")])) |};
     Get := fun _ _ _ =>
       Returns {| net_http.StatusCode := 200;
                  net_http.Body :=
                    Returns (json.Denotes (VObject [("name", VString "Alice A.");
                                                    ("mail", VString "a@b.com")])) |} |}.

End Sample.

Module SubjectSample.

(** An identity token without [sub], and one whose [sub] is a number. *)
Definition anonymous : list (string * Value) := [("name", VString "Alice")].
Definition numbered : list (string * Value) := [("sub", VNumber 42)].

Definition env : Env :=
  {| Exchange := fun _ _ _ => Returns (Sample.token_of (VString "h.p.s"));
     Verify := Verify Sample.env;
     ParseUnverified := fun rawIDToken => inr (json.store ∅ anonymous);
     Now := Now Sample.env;
     UserInfo := UserInfo Sample.env;
     Get := fun _ _ _ =>
       Returns {| net_http.StatusCode := 200;
                  net_http.Body := Returns (json.Denotes (VObject numbered)) |} |}.

End SubjectSample.

Module Stalled.

(** A caller's context that is canceled while the call is in flight. *)
Definition caller : context.Context := context.WithCancel context.TODO true.

(** A token endpoint that never answers.  The library gives up only when
    the context it was handed is done. *)
Definition env : Env :=
  {| Exchange := fun ctx _ _ =>
       if context.done ctx then Fails context.Canceled else Blocks;
     Verify := Verify Sample.env;
     ParseUnverified := ParseUnverified Sample.env;
     Now := Now Sample.env;
     UserInfo := UserInfo Sample.env;
     Get := Get Sample.env |}.

End Stalled.

(** ** More of provider.go, and what further properties speak of *)

(** line 34 *)
Definition _oidcIdentityType : string := "OIDCIdentityProvider".

(** lines 201-203 *)
Definition Type_ (o : OIDCProvider) : string := _oidcIdentityType.

(** The seven errors that [AuthenticateCode] builds. *)
Definition AuthenticateCode_error (err : error) : Prop :=
  (exists cause, err = fmt_Errorf_w "oidc: failed to get token" cause)
  \/ err = errors_New "no id_token in token response"
  \/ (exists cause, err = fmt_Errorf_w "failed to verify id token" cause)
  \/ (exists cause, err = fmt_Errorf_w "failed to decode id token claims" cause)
  \/ (exists cause, err = fmt_Errorf_w "failed to fetch userinfo" cause)
  \/ (exists cause, err = fmt_Errorf_w "failed to decode userinfo claims" cause)
  \/ err = errors_New ("missing required claim " +:+ quoted "sub").

Module UserinfoSample.


Definition answering (body : json.Document) : Env :=
  {| Exchange := Exchange Sample.env;
     Verify := Verify Sample.env;
     ParseUnverified := ParseUnverified Sample.env;
     Now := Now Sample.env;
     UserInfo := fun _ _ _ => Returns {| oidc.ui_claims := Some body |};
     Get := fun _ _ _ =>
       Returns {| net_http.StatusCode := 200;
                  net_http.Body := Returns body |} |}.

(** An upstream whose userinfo endpoint and verifier never answer. *)
Definition silent : Env :=
  {| Exchange := Exchange Sample.env;
     Verify := fun _ _ _ => Blocks;
     ParseUnverified := ParseUnverified Sample.env;
     Now := Now Sample.env;
     UserInfo := fun _ _ _ => Blocks;
     Get := fun _ _ _ => Blocks |}.

(** A provider record whose own fields differ from [Sample.plain] in
    everything that the OAuth2 configuration repeats. *)
Definition renamed : OIDCProvider :=
  {| Issuer := "https://other.example";
     ClientID := "other";
     ClientSecret := "other-secret";
     Endpoint := {| AuthURL := "https://other.example/auth";
                    TokenURL := "https://other.example/token";
                    UserInfoURL := "https://idp.example/userinfo";
                    JWKSURL := "https://other.example/keys";
                    EndSessionURL := "https://other.example/logout" |};
     RedirectURL := "https://other.example/cb";
     Scopes := ["profile"];
     GetUserInfo := false;
     InsecureSkipVerify := false;
     EmailKey := "";
     PreferredUsernameKey := "";
     Provider := None;
     OAuth2Config := Some Sample.config;
     Verifier := None |}.

End UserinfoSample.

(** The pieces [key=value] that [Encode] writes, in its order. *)
Definition query_pieces (v : url.Values) : list string :=
  flat_map (fun kvs =>
              map (fun value =>
                     url.QueryEscape kvs.1 +:+ "=" +:+ url.QueryEscape value)
                  kvs.2) v.

(** The buffer after more pieces were written to it. *)
Definition written (buf : string) (pieces : list string) : string :=
  match pieces with
  | [] => buf
  | _ => match buf with
         | EmptyString => String.concat "&" pieces
         | _ => buf +:+ "&" +:+ String.concat "&" pieces
         end
  end.

(** The bytes that an escaped value can hold: the ones that pass
    unescaped, and the two that escaping writes. *)
Definition query_safe (c : ascii) : bool :=
  (negb (url.shouldEscape c) || Ascii.eqb c "%" || Ascii.eqb c "+")%char.

Fixpoint all_bytes (p : ascii -> bool) (s : string) : bool :=
  match s with
  | EmptyString => true
  | String c rest => p c && all_bytes p rest
  end.

(** How often the byte [c] occurs in [s]. *)
Fixpoint count_byte (c : ascii) (s : string) : nat :=
  match s with
  | EmptyString => 0
  | String d rest => (if Ascii.eqb c d then 1 else 0) + count_byte c rest
  end.

(** Every key of the map holds one value. *)
Definition single_valued (v : url.Values) : Prop :=
  Forall (fun kvs => length kvs.2 = 1) v.

(** ** Proof tools *)

(** Case analysis on an innermost scrutinee of the goal. *)
Ltac break_match :=
  match goal with
  | |- context [match ?x with _ => _ end] =>
      lazymatch x with
      | context [match _ with _ => _ end] => fail
      | _ => destruct x eqn:?
      end
  end.

Ltac unfold_ops :=
  unfold run, AuthenticateCode, resolveClaims, userInfoClaims, idTokenClaims,
    Authenticate, bind, wrap, call, lift, ret, fail, panic, ioutil_ReadAll in *.

Ltac open_values :=
  unfold oauth2.authCodeValues; cbv zeta; cbn [fold_left];
  unfold oauth2.setValue, oidc.Nonce; cbn [oauth2.key oauth2.value].

(** * Proofs *)

(** ** The log of calls *)

Example sample_run :
  run (AuthenticateCode Sample.env Sample.plain "c-alice")
  = ([CallExchange context.TODO "c-alice"; CallParseUnverified "h.alice.s"],
     Returns {| Sub := "u-1"; PreferredUsername := "Alice"; Email := "" |}).
Proof. vm_compute. reflexivity. Qed.

Lemma idTokenClaims_log env o ctx rawIDToken log :
  fst (idTokenClaims env o ctx rawIDToken log)
  = (log ++ [claims_call o ctx rawIDToken])%list.
Proof.
  unfold_ops. unfold claims_call.
  repeat (break_match; simpl in *; try congruence).
Qed.

Lemma userInfoClaims_log env o ctx token claims log :
  fst (userInfoClaims env o ctx token claims log)
  = (log ++ userinfo_calls o ctx token)%list.
Proof.
  unfold_ops. unfold userinfo_calls.
  repeat (break_match; simpl in *; try congruence);
    rewrite ?app_nil_r; congruence.
Qed.

(** A failure of the identity-token stage ends the call before any
    userinfo request. *)
Lemma resolveClaims_unfold env o config code token rawIDToken :
  OAuth2Config o = Some config ->
  Exchange env (requestContext o) config code = Returns token ->
  oauth2.Extra token "id_token" = VString rawIDToken ->
  run (resolveClaims env o code)
  = bind (idTokenClaims env o (requestContext o) rawIDToken)
         (userInfoClaims env o (requestContext o) token)
         [CallExchange (requestContext o) code].
Proof.
  intros Hcfg Hex Hid. unfold run, resolveClaims.
  rewrite Hcfg. unfold bind at 1, wrap, call. rewrite Hex. simpl.
  unfold string_extra. rewrite Hid. reflexivity.
Qed.



(** ** Identity-token claims: verified and unverified path *)





Example stale_token_message :
  run (AuthenticateCode Sample.env Sample.plain "c-stale")
  = ([CallExchange context.TODO "c-stale"; CallParseUnverified "h.stale.s"],
     Fails (fmt_Errorf_w "failed to verify id token"
              (errors_New "Token is expired"))).
Proof. vm_compute. reflexivity. Qed.

Example expired_message :
  Error (fmt_Errorf_w "failed to verify id token"
           (errors_New "Token is expired"))
  = "failed to verify id token: Token is expired".
Proof. reflexivity. Qed.

Example verified_path_rejects_forged :
  run (AuthenticateCode Sample.env Sample.discovered "c-forged")
  = ([CallExchange (requestContext Sample.discovered) "c-forged";
      CallVerify (requestContext Sample.discovered) "h.alice.x"],
     Fails (fmt_Errorf_w "failed to verify id token"
              (errors_New "failed to verify signature"))).
Proof. vm_compute. reflexivity. Qed.

Example unverified_path_accepts_forged :
  run (AuthenticateCode Sample.env Sample.plain "c-forged")
  = ([CallExchange context.TODO "c-forged"; CallParseUnverified "h.alice.x"],
     Returns {| Sub := "u-1"; PreferredUsername := "Alice"; Email := "" |}).
Proof. vm_compute. reflexivity. Qed.

Example unverified_path_garbled :
  run (AuthenticateCode Sample.env Sample.plain "c-garbled")
  = ([CallExchange context.TODO "c-garbled"; CallParseUnverified "garbled"],
     Fails (fmt_Errorf_w "failed to decode id token claims"
              (errors_New "token contains an invalid number of segments"))).
Proof. vm_compute. reflexivity. Qed.

(** ** Missing identity token *)





(** ** Subject *)

(** C4.  Whatever claim set the earlier stages resolve, if it has no
    string under [sub] (the key is absent, or its value is not a string),
    the call fails with the message [missing required claim] followed by
    the quoted word [sub] (missing subject claim) and returns no identity. *)
Theorem C4_missing_subject env o code log claims :
  run (resolveClaims env o code) = (log, Returns claims) ->
  (forall s, claims !! "sub" <> Some (VString s)) ->
  run (AuthenticateCode env o code)
  = (log, Fails (errors_New ("missing required claim " +:+ quoted "sub"))).
Proof.
  intros Hres Hsub. unfold run, AuthenticateCode, bind in *. rewrite Hres.
  unfold lift, identityOf, string_claim.
  destruct (claims !! "sub") as [[]|] eqn:Hs; try reflexivity.
  exfalso. eapply Hsub. reflexivity.
Qed.

(** A subject, when present as a string, is returned as it is. *)
Lemma identityOf_subject o claims subject :
  claims !! "sub" = Some (VString subject) ->
  exists id, identityOf o claims = inr id /\ Sub id = subject.
Proof.
  intros Hs. unfold identityOf, string_claim. rewrite Hs. simpl.
  eexists. split; reflexivity.
Qed.

Lemma C4_missing_subject_witness :
  run (AuthenticateCode SubjectSample.env Sample.plain "c")
  = ([CallExchange context.TODO "c"; CallParseUnverified "h.p.s"],
     Fails (errors_New ("missing required claim " +:+ quoted "sub")))
  /\ snd (run (AuthenticateCode SubjectSample.env
                 (Sample.with_userinfo Sample.plain) "c"))
     = Fails (errors_New ("missing required claim " +:+ quoted "sub")).
Proof.
  split.
  - apply (C4_missing_subject SubjectSample.env Sample.plain "c" _
             (json.store ∅ SubjectSample.anonymous)).
    + vm_compute. reflexivity.
    + intros s. vm_compute. discriminate.
  - erewrite (C4_missing_subject SubjectSample.env
                (Sample.with_userinfo Sample.plain) "c" _
                (json.store (json.store ∅ SubjectSample.anonymous)
                            SubjectSample.numbered)).
    + reflexivity.
    + vm_compute. reflexivity.
    + intros s. vm_compute. discriminate.
Defined.

(** ** Credentials *)

(** C5.  [Authenticate] fails for every provider, username and password
    with "unsupported authenticate with username password" (unsupported
    authentication method).  The operation does not depend on the
    environment and adds nothing to the log of calls: nothing reaches the
    network. *)
Theorem C5_credentials_rejected o username password :
  run (Authenticate o username password)
  = ([], Fails (errors_New "unsupported authenticate with username password"))
  /\ forall log, fst (Authenticate o username password log) = log.
Proof. split; reflexivity. Qed.

(** ** Userinfo claims *)

(** Decoding an object into a map that already holds entries gives the
    left-biased union of the object's own claim set with those entries. *)
Lemma store_union (claims : gmap string Value) fields :
  json.store claims fields = json.store ∅ fields ∪ claims.
Proof.
  unfold json.store. revert claims.
  induction fields as [|[k v] fields IH]; intros claims; simpl.
  - by rewrite (left_id_L ∅ (∪)).
  - rewrite (IH (<[k:=v]> claims)), (IH (<[k:=v]> ∅)).
    rewrite <- (assoc_L (∪)). f_equal.
    rewrite insert_empty. by rewrite <- insert_union_singleton_l.
Qed.

Lemma userInfoClaims_object env o ctx token claims fields log :
  GetUserInfo o = true ->
  userinfo_body env o ctx token = Some (json.Denotes (VObject fields)) ->
  userInfoClaims env o ctx token claims log
  = ((log ++ userinfo_calls o ctx token)%list,
     Returns (json.store claims fields)).
Proof.
  intros Hget Hbody. unfold userinfo_body in Hbody.
  unfold userInfoClaims, userinfo_calls. rewrite Hget.
  destruct (Provider o) as [provider|].
  - destruct (UserInfo env provider ctx token) as [userInfo| | |] eqn:Hui;
      try discriminate.
    unfold bind, wrap, call. simpl. rewrite Hbody. reflexivity.
  - destruct (Get env ctx token (UserInfoURL (Endpoint o))) as [resp| | |] eqn:Hresp;
      try discriminate.
    destruct (net_http.Body resp) as [data| | |] eqn:Hdata; try discriminate.
    injection Hbody as ->.
    unfold bind, wrap, call, ioutil_ReadAll. simpl.
    rewrite Hdata. reflexivity.
Qed.

(** C6 as stated fails: a userinfo request that succeeds with the JSON
    null as its body adds no claim and yet the claims of the identity
    token, its [sub] among them, do not remain: decoding null empties the
    claims, and the call ends without a subject. *)
Lemma C6_null_body_drops_claims :
  idTokenClaims (UserinfoSample.answering (json.Denotes VNil))
    (Sample.with_userinfo Sample.plain) context.TODO "h.alice.s"
    [CallExchange context.TODO "c-alice"]
  = ([CallExchange context.TODO "c-alice"; CallParseUnverified "h.alice.s"],
     Returns (json.store ∅ Sample.alice))
  /\ json.store ∅ Sample.alice !! "sub" = Some (VString "u-1")
  /\ userinfo_body (UserinfoSample.answering (json.Denotes VNil))
       (Sample.with_userinfo Sample.plain) context.TODO
       (Sample.token_of (VString "h.alice.s"))
     = Some (json.Denotes VNil)
  /\ run (resolveClaims (UserinfoSample.answering (json.Denotes VNil))
            (Sample.with_userinfo Sample.plain) "c-alice")
     = ([CallExchange context.TODO "c-alice"; CallParseUnverified "h.alice.s";
         CallGet context.TODO (Sample.token_of (VString "h.alice.s"))
           "https://idp.example/userinfo"],
        Returns ∅)
  /\ run (AuthenticateCode (UserinfoSample.answering (json.Denotes VNil))
            (Sample.with_userinfo Sample.plain) "c-alice")
     = ([CallExchange context.TODO "c-alice"; CallParseUnverified "h.alice.s";
         CallGet context.TODO (Sample.token_of (VString "h.alice.s"))
           "https://idp.example/userinfo"],
        Fails (errors_New ("missing required claim " +:+ quoted "sub"))).
Proof. repeat split; vm_compute; reflexivity. Qed.

(** C6, amended.  With userinfo enabled and a userinfo response that is a JSON
    object, the claim set handed on is the union of the userinfo claims
    and the identity-token claims in which userinfo wins: a key of the
    userinfo response carries the userinfo value, every other key keeps
    what the identity token gave it, and the identity is read off this
    merged set. *)
Theorem C6_userinfo_precedence env o config code token rawIDToken log idclaims fields :
  OAuth2Config o = Some config ->
  Exchange env (requestContext o) config code = Returns token ->
  oauth2.Extra token "id_token" = VString rawIDToken ->
  idTokenClaims env o (requestContext o) rawIDToken
    [CallExchange (requestContext o) code] = (log, Returns idclaims) ->
  GetUserInfo o = true ->
  userinfo_body env o (requestContext o) token
  = Some (json.Denotes (VObject fields)) ->
  let userinfo : jwt.MapClaims := json.store ∅ fields in
  let merged : jwt.MapClaims := userinfo ∪ idclaims in
  let log' := (log ++ userinfo_calls o (requestContext o) token)%list in
  run (resolveClaims env o code) = (log', Returns merged)
  /\ (forall k v, userinfo !! k = Some v -> merged !! k = Some v)
  /\ (forall k, userinfo !! k = None -> merged !! k = idclaims !! k)
  /\ run (AuthenticateCode env o code)
     = (log', match identityOf o merged with
              | inl err => Fails err
              | inr id => Returns id
              end).
Proof.
  intros Hcfg Hex Hid Hclaims Hget Hbody userinfo merged log'.
  assert (Hres : run (resolveClaims env o code) = (log', Returns merged)).
  { rewrite (resolveClaims_unfold env o config code token rawIDToken Hcfg Hex Hid).
    unfold bind. rewrite Hclaims.
    rewrite (userInfoClaims_object env o _ token idclaims fields log Hget Hbody).
    unfold merged, userinfo. by rewrite store_union. }
  repeat split.
  - exact Hres.
  - intros k v Hk. unfold merged. by apply lookup_union_Some_l.
  - intros k Hk. unfold merged. by apply lookup_union_r.
  - unfold run, AuthenticateCode, bind in *. rewrite Hres.
    unfold lift, ret, fail. destruct (identityOf o merged); reflexivity.
Qed.

(** The identity token says [name = "Alice"] and has no [mail]; userinfo
    says [name = "Alice A."] and [mail = "a@b.com"], and has no [sub]. *)
Lemma C6_userinfo_precedence_witness :
  run (AuthenticateCode Sample.env
         (Sample.with_email_key "mail" (Sample.with_userinfo Sample.plain))
         "c-alice")
  = ([CallExchange context.TODO "c-alice"; CallParseUnverified "h.alice.s";
      CallGet context.TODO (Sample.token_of (VString "h.alice.s"))
        "https://idp.example/userinfo"],
     Returns {| Sub := "u-1"; PreferredUsername := "Alice A.";
                Email := "a@b.com" |}).
Proof.
  exact (proj2 (proj2 (proj2
    (C6_userinfo_precedence Sample.env
       (Sample.with_email_key "mail" (Sample.with_userinfo Sample.plain))
       Sample.config "c-alice" (Sample.token_of (VString "h.alice.s"))
       "h.alice.s"
       [CallExchange context.TODO "c-alice"; CallParseUnverified "h.alice.s"]
       (json.store ∅ Sample.alice)
       [("name", VString "Alice A."); ("mail", VString "a@b.com")]
       eq_refl eq_refl eq_refl eq_refl eq_refl eq_refl)))).
Defined.

(** ** Email and preferred username *)

Lemma string_claim_some (claims : jwt.MapClaims) key s :
  claims !! key = Some (VString s) -> fst (string_claim claims key) = s.
Proof. intros H. unfold string_claim. by rewrite H. Qed.

Lemma string_claim_none (claims : jwt.MapClaims) key :
  (forall s, claims !! key <> Some (VString s)) ->
  fst (string_claim claims key) = "".
Proof.
  intros H. unfold string_claim.
  destruct (claims !! key) as [[]|] eqn:Hk; try reflexivity.
  exfalso. by eapply H.
Qed.

Lemma key_in_force_eqb override default key :
  key_in_force override default key ->
  (if negb (String.eqb override "") then override else default) = key.
Proof.
  intros [[Hne ->] | [-> ->]]; [|reflexivity].
  destruct (String.eqb override "") eqn:E; [|reflexivity].
  apply String.eqb_eq in E. contradiction.
Qed.

(** C7.  Once the claim set has a subject, the email of the identity is
    the string found under the configured email key, or under [email]
    when no key is configured; when that key is absent or holds no string
    the email is the empty string, and the call still succeeds. *)
Theorem C7_email env o code log claims subject key :
  run (resolveClaims env o code) = (log, Returns claims) ->
  claims !! "sub" = Some (VString subject) ->
  key_in_force (EmailKey o) "email" key ->
  exists id,
    run (AuthenticateCode env o code) = (log, Returns id)
    /\ (forall s, claims !! key = Some (VString s) -> Email id = s)
    /\ ((forall s, claims !! key <> Some (VString s)) -> Email id = "").
Proof.
  intros Hres Hsub Hkey.
  unfold run, AuthenticateCode, bind in *. rewrite Hres.
  unfold lift, identityOf. unfold string_claim at 1. rewrite Hsub. simpl.
  rewrite (key_in_force_eqb _ _ _ Hkey).
  eexists. split; [reflexivity|]. simpl. split.
  - apply string_claim_some.
  - apply string_claim_none.
Qed.

(** The override is ["mail"]; the claims hold [mail] and no [email]. *)
Lemma C7_email_witness :
  exists id,
    run (AuthenticateCode Sample.env
           (Sample.with_email_key "mail" (Sample.with_userinfo Sample.plain))
           "c-alice")
    = ([CallExchange context.TODO "c-alice"; CallParseUnverified "h.alice.s";
        CallGet context.TODO (Sample.token_of (VString "h.alice.s"))
          "https://idp.example/userinfo"],
       Returns id)
    /\ Email id = "a@b.com".
Proof.
  destruct (C7_email Sample.env
              (Sample.with_email_key "mail" (Sample.with_userinfo Sample.plain))
              "c-alice"
              [CallExchange context.TODO "c-alice"; CallParseUnverified "h.alice.s";
               CallGet context.TODO (Sample.token_of (VString "h.alice.s"))
                 "https://idp.example/userinfo"]
              (json.store (json.store ∅ Sample.alice)
                 [("name", VString "Alice A."); ("mail", VString "a@b.com")])
              "u-1" "mail")
    as (id & Hrun & Hsome & _).
  - vm_compute. reflexivity.
  - vm_compute. reflexivity.
  - left. split; [discriminate | reflexivity].
  - exists id. split; [exact Hrun|]. apply Hsome. vm_compute. reflexivity.
Defined.

Example email_absent_is_empty :
  run (AuthenticateCode Sample.env Sample.plain "c-alice")
  = ([CallExchange context.TODO "c-alice"; CallParseUnverified "h.alice.s"],
     Returns {| Sub := "u-1"; PreferredUsername := "Alice"; Email := "" |}).
Proof. vm_compute. reflexivity. Qed.

(** C8.  Once the claim set has a subject, the preferred username is the
    non-empty string found under the configured key, or under
    [preferred_username] when no key is configured; when that lookup
    gives no non-empty string, it is the string under [name], and the
    empty string when [name] holds no string either.  The call succeeds
    in every case. *)
Theorem C8_preferred_username env o code log claims subject key :
  run (resolveClaims env o code) = (log, Returns claims) ->
  claims !! "sub" = Some (VString subject) ->
  key_in_force (PreferredUsernameKey o) "preferred_username" key ->
  exists id,
    run (AuthenticateCode env o code) = (log, Returns id)
    /\ (forall s, claims !! key = Some (VString s) -> s <> "" ->
          PreferredUsername id = s)
    /\ ((forall s, claims !! key = Some (VString s) -> s = "") ->
        (forall n, claims !! "name" = Some (VString n) ->
           PreferredUsername id = n)
        /\ ((forall n, claims !! "name" <> Some (VString n)) ->
            PreferredUsername id = "")).
Proof.
  intros Hres Hsub Hkey.
  unfold run, AuthenticateCode, bind in *. rewrite Hres.
  unfold lift, identityOf. unfold string_claim at 1. rewrite Hsub. simpl.
  rewrite (key_in_force_eqb _ _ _ Hkey).
  eexists. split; [reflexivity|]. simpl. split.
  - intros s Hs Hne. rewrite (string_claim_some _ _ _ Hs).
    destruct (String.eqb s "") eqn:E; [|reflexivity].
    apply String.eqb_eq in E. contradiction.
  - intros Hnothing.
    assert (Hempty : fst (string_claim claims key) = "").
    { unfold string_claim.
      destruct (claims !! key) as [[]|] eqn:Hk; try reflexivity.
      simpl. by apply Hnothing. }
    rewrite Hempty. simpl. split.
    + apply string_claim_some.
    + apply string_claim_none.
Qed.

(** No [preferred_username] claim, and [name = "Alice"]. *)
Lemma C8_preferred_username_witness :
  exists id,
    run (AuthenticateCode Sample.env Sample.plain "c-alice")
    = ([CallExchange context.TODO "c-alice"; CallParseUnverified "h.alice.s"],
       Returns id)
    /\ PreferredUsername id = "Alice".
Proof.
  destruct (C8_preferred_username Sample.env Sample.plain "c-alice"
              [CallExchange context.TODO "c-alice"; CallParseUnverified "h.alice.s"]
              (json.store ∅ Sample.alice) "u-1" "preferred_username")
    as (id & Hrun & _ & Hfallback).
  - vm_compute. reflexivity.
  - vm_compute. reflexivity.
  - right. split; reflexivity.
  - exists id. split; [exact Hrun|].
    apply Hfallback.
    + intros s. vm_compute. discriminate.
    + vm_compute. reflexivity.
Defined.

(** ** The direct userinfo request *)

Lemma idTokenClaims_error env o ctx rawIDToken log err :
  snd (idTokenClaims env o ctx rawIDToken log) = Fails err ->
  ~ userinfo_error err.
Proof.
  unfold_ops. intros H [cause Hc]. revert H.
  repeat (break_match; simpl in *; try congruence);
    intros H; destruct Hc; congruence.
Qed.

Lemma identityOf_error o claims err :
  identityOf o claims = inl err -> ~ userinfo_error err.
Proof.
  unfold identityOf. intros H [cause Hc].
  destruct (string_claim claims "sub") as [subject []]; simpl in H;
    try discriminate.
  destruct Hc; congruence.
Qed.

Lemma userInfoClaims_status env o ctx token claims log status :
  userInfoClaims (with_status status env) o ctx token claims log
  = userInfoClaims env o ctx token claims log.
Proof.
  unfold userInfoClaims. destruct (GetUserInfo o); [|reflexivity].
  destruct (Provider o); [reflexivity|].
  unfold bind, wrap, call, with_status. simpl.
  destruct (Get env ctx token (UserInfoURL (Endpoint o))); reflexivity.
Qed.

Lemma bind_ext {A B} (m : M A) (k k' : A -> M B) log :
  (forall a log', k a log' = k' a log') -> bind m k log = bind m k' log.
Proof.
  intros Hk. unfold bind. destruct (m log) as [log' [a| | |]]; auto.
Qed.

Lemma idTokenClaims_status env o ctx rawIDToken status :
  idTokenClaims (with_status status env) o ctx rawIDToken
  = idTokenClaims env o ctx rawIDToken.
Proof. reflexivity. Qed.

Lemma resolveClaims_status env o code status log :
  resolveClaims (with_status status env) o code log
  = resolveClaims env o code log.
Proof.
  unfold resolveClaims. destruct (OAuth2Config o) as [config|]; [|reflexivity].
  change (Exchange (with_status status env)) with (Exchange env).
  apply bind_ext. intros token log1.
  destruct (string_extra token "id_token") as [rawIDToken []]; simpl;
    [|reflexivity].
  rewrite idTokenClaims_status. apply bind_ext. intros claims log2.
  apply userInfoClaims_status.
Qed.

Lemma AuthenticateCode_status env o code status :
  run (AuthenticateCode (with_status status env) o code)
  = run (AuthenticateCode env o code).
Proof.
  unfold run, AuthenticateCode, bind. by rewrite resolveClaims_status.
Qed.

(** C10.  With userinfo enabled and no provider object, the status code
    of the userinfo response plays no part: the result of the whole call
    is the same whatever the status; a response of any status whose body
    is a JSON object is merged into the claims; and a userinfo error
    ("failed to fetch userinfo", "failed to decode userinfo claims")
    arises only when the request returned an error, reading the body
    returned an error, or the body is not a JSON object.  Each of the
    first two, and a body that is not JSON at all, does give that error. *)
Theorem C10_direct_userinfo_status env o code :
  GetUserInfo o = true ->
  Provider o = None ->
  let ctx := requestContext o in
  let url := UserInfoURL (Endpoint o) in
  (forall status,
     run (AuthenticateCode (with_status status env) o code)
     = run (AuthenticateCode env o code))
  /\ (forall token claims log resp fields,
        Get env ctx token url = Returns resp ->
        net_http.Body resp = Returns (json.Denotes (VObject fields)) ->
        userInfoClaims env o ctx token claims log
        = ((log ++ [CallGet ctx token url])%list,
           Returns (json.store claims fields)))
  /\ (forall err,
        snd (run (AuthenticateCode env o code)) = Fails err ->
        userinfo_error err ->
        exists config token,
          OAuth2Config o = Some config
          /\ Exchange env ctx config code = Returns token
          /\ ((exists cause, Get env ctx token url = Fails cause)
              \/ (exists resp cause,
                    Get env ctx token url = Returns resp
                    /\ net_http.Body resp = Fails cause)
              \/ (exists resp data,
                    Get env ctx token url = Returns resp
                    /\ net_http.Body resp = Returns data
                    /\ forall fields, data <> json.Denotes (VObject fields))))
  /\ (forall token claims log,
        (forall cause, Get env ctx token url = Fails cause ->
           userInfoClaims env o ctx token claims log
           = ((log ++ [CallGet ctx token url])%list,
              Fails (fmt_Errorf_w "failed to fetch userinfo" cause)))
        /\ (forall resp cause,
              Get env ctx token url = Returns resp ->
              net_http.Body resp = Fails cause ->
              userInfoClaims env o ctx token claims log
              = ((log ++ [CallGet ctx token url])%list,
                 Fails (fmt_Errorf_w "failed to fetch userinfo" cause)))
        /\ (forall resp,
              Get env ctx token url = Returns resp ->
              net_http.Body resp = Returns json.Malformed ->
              userInfoClaims env o ctx token claims log
              = ((log ++ [CallGet ctx token url])%list,
                 Fails (fmt_Errorf_w "failed to decode userinfo claims"
                          json.SyntaxError)))).
Proof.
  intros Hget Hprov ctx url.
  assert (Hconv : forall token claims log,
        (forall cause, Get env ctx token url = Fails cause ->
           userInfoClaims env o ctx token claims log
           = ((log ++ [CallGet ctx token url])%list,
              Fails (fmt_Errorf_w "failed to fetch userinfo" cause)))
        /\ (forall resp cause,
              Get env ctx token url = Returns resp ->
              net_http.Body resp = Fails cause ->
              userInfoClaims env o ctx token claims log
              = ((log ++ [CallGet ctx token url])%list,
                 Fails (fmt_Errorf_w "failed to fetch userinfo" cause)))
        /\ (forall resp,
              Get env ctx token url = Returns resp ->
              net_http.Body resp = Returns json.Malformed ->
              userInfoClaims env o ctx token claims log
              = ((log ++ [CallGet ctx token url])%list,
                 Fails (fmt_Errorf_w "failed to decode userinfo claims"
                          json.SyntaxError)))).
  { intros token claims log. unfold userInfoClaims. rewrite Hget, Hprov.
    fold url. unfold bind, wrap, call, ioutil_ReadAll. repeat split.
    - intros cause ->. reflexivity.
    - intros resp cause -> Hbody. simpl. rewrite Hbody. reflexivity.
    - intros resp -> Hbody. simpl. rewrite Hbody. reflexivity. }
  split; [|split; [|split; [|exact Hconv]]].
  - intros status. apply AuthenticateCode_status.
  - intros token claims log resp fields Hresp Hbody.
    rewrite (userInfoClaims_object env o ctx token claims fields log Hget).
    + unfold userinfo_calls. rewrite Hget, Hprov. reflexivity.
    + unfold userinfo_body. rewrite Hprov. fold url. rewrite Hresp, Hbody.
      reflexivity.
  - intros err Hfail Hkind.
    unfold run, AuthenticateCode in Hfail. unfold bind at 1 in Hfail.
    destruct (resolveClaims env o code []) as [logr outr] eqn:Hres.
    unfold resolveClaims in Hres.
    destruct (OAuth2Config o) as [config|]; [|unfold panic in Hres; injection Hres as <- <-; discriminate].
    fold ctx in Hres.
    unfold bind at 1, wrap at 1, call at 1 in Hres.
    destruct (Exchange env ctx config code) as [token|cause| |] eqn:Hex;
      simpl in Hres.
    2:{ injection Hres as <- <-. simpl in Hfail. destruct Hkind as [c [Hc|Hc]]; congruence. }
    2,3: injection Hres as <- <-; discriminate.
    exists config, token. split; [reflexivity|]. split; [exact Hex|].
    destruct (string_extra token "id_token") as [rawIDToken []];
      simpl in Hres.
    2:{ unfold fail in Hres. injection Hres as <- <-. simpl in Hfail. destruct Hkind as [c [Hc|Hc]]; congruence. }
    unfold bind at 1 in Hres.
    pose proof (idTokenClaims_error env o ctx rawIDToken
                  [CallExchange ctx code]) as Hid.
    destruct (idTokenClaims env o ctx rawIDToken [CallExchange ctx code])
      as [log1 [claims|cause| |]]; simpl in Hid.
    2:{ injection Hres as <- <-. simpl in Hfail. exfalso. injection Hfail as ->. by eapply Hid. }
    2,3: injection Hres as <- <-; discriminate.
    clear Hid. unfold userInfoClaims in Hres.
    rewrite Hget, Hprov in Hres. fold url in Hres.
    unfold bind, wrap, call, ioutil_ReadAll in Hres.
    destruct (Get env ctx token url) as [resp|cause| |];
      simpl in Hres.
    2:{ left. by exists cause. }
    2,3: injection Hres as <- <-; discriminate.
    destruct (net_http.Body resp) as [data|cause| |] eqn:Hbody;
      simpl in Hres.
    2:{ right. left. exists resp, cause. by split. }
    2,3: injection Hres as <- <-; discriminate.
    right. right. exists resp, data. split; [reflexivity|]. split; [exact Hbody|].
    intros fields ->. simpl in Hres. unfold ret in Hres.
    injection Hres as <- <-.
    unfold lift in Hfail.
    destruct (identityOf o (json.store claims fields)) as [e|id] eqn:Hidy;
      [|discriminate].
    injection Hfail as ->. by eapply identityOf_error.
Qed.

(** A userinfo endpoint that answers 500 with a JSON object: the call
    succeeds and uses the body. *)
Lemma C10_direct_userinfo_status_witness :
  run (AuthenticateCode (with_status 500 Sample.env)
         (Sample.with_email_key "mail" (Sample.with_userinfo Sample.plain))
         "c-alice")
  = ([CallExchange context.TODO "c-alice"; CallParseUnverified "h.alice.s";
      CallGet context.TODO (Sample.token_of (VString "h.alice.s"))
        "https://idp.example/userinfo"],
     Returns {| Sub := "u-1"; PreferredUsername := "Alice A.";
                Email := "a@b.com" |}).
Proof.
  rewrite (proj1 (C10_direct_userinfo_status Sample.env
                    (Sample.with_email_key "mail"
                       (Sample.with_userinfo Sample.plain))
                    "c-alice" eq_refl eq_refl) 500%Z).
  vm_compute. reflexivity.
Defined.

(** ** The context of the calls *)

(** The HTTP client that the libraries find in the context. *)
Lemma requestContext_client o :
  context.Value (requestContext o) context.oauth2_HTTPClient
  = if InsecureSkipVerify o
    then Some {| http.InsecureSkipVerify := true |} else None.
Proof. unfold requestContext. destruct (InsecureSkipVerify o); reflexivity. Qed.

Lemma made_under_app ctx log log' :
  made_under ctx log -> made_under ctx log' -> made_under ctx (log ++ log').
Proof. unfold made_under. rewrite Forall_app. auto. Qed.

Lemma made_under_claims_call o ctx rawIDToken :
  made_under ctx [claims_call o ctx rawIDToken].
Proof.
  unfold claims_call. constructor; [|constructor].
  destruct (Verifier o); simpl; congruence.
Qed.

Lemma made_under_userinfo_calls o ctx token :
  made_under ctx (userinfo_calls o ctx token).
Proof.
  unfold userinfo_calls.
  destruct (GetUserInfo o); [|constructor].
  destruct (Provider o); (constructor; [simpl; congruence | constructor]).
Qed.

Lemma resolveClaims_made_under env o code :
  made_under (requestContext o) (fst (run (resolveClaims env o code))).
Proof.
  unfold run, resolveClaims. set (ctx := requestContext o).
  destruct (OAuth2Config o) as [config|]; [|constructor].
  assert (Hex : made_under ctx [CallExchange ctx code]).
  { constructor; [simpl; congruence | constructor]. }
  unfold bind at 1, wrap at 1, call at 1.
  destruct (Exchange env ctx config code) as [token| | |]; simpl; try exact Hex.
  destruct (string_extra token "id_token") as [rawIDToken []]; simpl;
    [|exact Hex].
  unfold bind.
  pose proof (idTokenClaims_log env o ctx rawIDToken [CallExchange ctx code])
    as Hlog.
  destruct (idTokenClaims env o ctx rawIDToken [CallExchange ctx code])
    as [log1 out1]; simpl in Hlog; subst log1.
  assert (H1 : made_under ctx ([CallExchange ctx code]
                               ++ [claims_call o ctx rawIDToken])).
  { apply made_under_app; [exact Hex | apply made_under_claims_call]. }
  destruct out1 as [claims| | |]; simpl; try exact H1.
  rewrite userInfoClaims_log.
  apply made_under_app; [exact H1 | apply made_under_userinfo_calls].
Qed.

Lemma AuthenticateCode_made_under env o code :
  made_under (requestContext o) (fst (run (AuthenticateCode env o code))).
Proof.
  pose proof (resolveClaims_made_under env o code) as H.
  unfold run, AuthenticateCode, bind in *.
  destruct (resolveClaims env o code []) as [log [claims| | |]]; simpl in *;
    try exact H.
  unfold lift, ret, fail. destruct (identityOf o claims); exact H.
Qed.

Example stalled_exchange_blocks :
  context.done Stalled.caller = true
  /\ Exchange Stalled.env Stalled.caller Sample.config "c-alice"
     = Fails context.Canceled
  /\ run (AuthenticateCode Stalled.env Sample.plain "c-alice")
     = ([CallExchange context.TODO "c-alice"], Blocks).
Proof. repeat split. Qed.

(** C2 as stated fails: the caller's context is canceled, the library
    would abort under it, and the call still never returns, because the
    exchange runs under [context.TODO()]. *)
Lemma C2_calling_context_not_honored : ~ honors_calling_context.
Proof.
  intros H.
  destruct (H Stalled.env Stalled.caller Sample.plain Sample.config "c-alice"
              eq_refl eq_refl) as [cause Hc].
  - exists context.Canceled. reflexivity.
  - destruct stalled_exchange_blocks as (_ & _ & Hrun).
    rewrite Hrun in Hc. discriminate.
Qed.

(** C2, amended.  [AuthenticateCode] takes no context.  Every call it
    makes runs under the context it builds itself, [context.TODO()] with
    at most the HTTP client attached; that context has no [Done] channel,
    so it is never canceled and never expires.  An error of the token
    exchange, whatever its cause, comes back as "failed to get token", an
    error of the userinfo request as "failed to fetch userinfo"; a call
    that never completes is not abandoned. *)
Theorem C2_calls_run_under_TODO env o code :
  let ctx := requestContext o in
  (ctx = context.TODO
   \/ ctx = context.WithValue context.TODO context.oauth2_HTTPClient
              {| http.InsecureSkipVerify := true |})
  /\ context.cancelable ctx = false
  /\ context.done ctx = false
  /\ made_under ctx (fst (run (AuthenticateCode env o code)))
  /\ (forall config, OAuth2Config o = Some config ->
        (forall cause, Exchange env ctx config code = Fails cause ->
           run (AuthenticateCode env o code)
           = ([CallExchange ctx code],
              Fails (fmt_Errorf_w "oidc: failed to get token" cause)))
        /\ (Exchange env ctx config code = Blocks ->
            run (AuthenticateCode env o code)
            = ([CallExchange ctx code], Blocks)))
  /\ (forall token claims log,
        GetUserInfo o = true ->
        (forall provider cause, Provider o = Some provider ->
           UserInfo env provider ctx token = Fails cause ->
           userInfoClaims env o ctx token claims log
           = ((log ++ [CallUserInfo ctx token])%list,
              Fails (fmt_Errorf_w "failed to fetch userinfo" cause)))
        /\ (forall cause, Provider o = None ->
              Get env ctx token (UserInfoURL (Endpoint o)) = Fails cause ->
              userInfoClaims env o ctx token claims log
              = ((log ++ [CallGet ctx token (UserInfoURL (Endpoint o))])%list,
                 Fails (fmt_Errorf_w "failed to fetch userinfo" cause)))).
Proof.
  intros ctx. subst ctx. repeat split.
  - unfold requestContext. destruct (InsecureSkipVerify o); auto.
  - unfold requestContext. destruct (InsecureSkipVerify o); reflexivity.
  - unfold requestContext. destruct (InsecureSkipVerify o); reflexivity.
  - apply AuthenticateCode_made_under.
  - intros cause Hex. unfold_ops. rewrite H, Hex. reflexivity.
  - intros Hex. unfold_ops. rewrite H, Hex. reflexivity.
  - intros provider cause Hp Hui. unfold_ops. rewrite H, Hp, Hui. reflexivity.
  - intros cause Hp Hget. unfold_ops. rewrite H, Hp, Hget. reflexivity.
Qed.

(** The stalled token endpoint: the call blocks under [context.TODO()]. *)
Lemma C2_calls_run_under_TODO_witness :
  run (AuthenticateCode Stalled.env Sample.plain "c-alice")
  = ([CallExchange context.TODO "c-alice"], Blocks).
Proof.
  destruct (C2_calls_run_under_TODO Stalled.env Sample.plain "c-alice")
    as (_ & _ & _ & _ & Hex & _).
  destruct (Hex Sample.config eq_refl) as [_ Hblocks].
  apply Hblocks. reflexivity.
Defined.

(** ** Authorization URL *)

(** ** Substrings *)

Lemma prefix_refl_app x t : String.prefix x (x +:+ t) = true.
Proof.
  induction x as [|c x IH]; simpl.
  - destruct t; reflexivity.
  - destruct (ascii_dec c c) as [_|Hne]; [exact IH | contradiction].
Qed.

Lemma prefix_app_l x s t :
  String.prefix x s = true -> String.prefix x (s +:+ t) = true.
Proof.
  revert s. induction x as [|c x IH]; intros s H.
  - destruct (s +:+ t); reflexivity.
  - destruct s as [|d s]; simpl in *; [discriminate|].
    destruct (ascii_dec c d); [auto | discriminate].
Qed.

Lemma Contains_prefix s x :
  String.prefix x s = true -> strings.Contains s x = true.
Proof. intros H. destruct s; simpl in *; rewrite H; reflexivity. Qed.

Lemma Contains_here x t : strings.Contains (x +:+ t) x = true.
Proof. apply Contains_prefix, prefix_refl_app. Qed.

Lemma Contains_cons c s x :
  strings.Contains (String c s) x
  = String.prefix x (String c s) || strings.Contains s x.
Proof. reflexivity. Qed.

Lemma Contains_app_r s t x :
  strings.Contains t x = true -> strings.Contains (s +:+ t) x = true.
Proof.
  intros H. induction s as [|c s IH]; [exact H|].
  change (String c s +:+ t) with (String c (s +:+ t)).
  rewrite Contains_cons, IH. apply orb_true_r.
Qed.

Lemma Contains_app_l s t x :
  strings.Contains s x = true -> strings.Contains (s +:+ t) x = true.
Proof.
  induction s as [|c s IH]; intros H.
  - destruct x; [|discriminate]. destruct t; reflexivity.
  - rewrite Contains_cons in H.
    change (String c s +:+ t) with (String c (s +:+ t)).
    rewrite Contains_cons.
    apply orb_true_iff in H as [H|H].
    + change (String c (s +:+ t)) with (String c s +:+ t).
      rewrite (prefix_app_l _ _ _ H). reflexivity.
    + rewrite (IH H). apply orb_true_r.
Qed.

Lemma escape_byte_unreserved c :
  url.shouldEscape c = false -> url.escape_byte c = String c EmptyString.
Proof.
  destruct c as [[] [] [] [] [] [] [] []]; vm_compute; congruence.
Qed.

Lemma QueryEscape_unreserved s :
  unreserved s = true -> url.QueryEscape s = s.
Proof.
  induction s as [|c s IH]; [reflexivity|].
  cbn [unreserved url.QueryEscape].
  intros H. apply andb_true_iff in H as [Hc Hs].
  apply negb_true_iff in Hc.
  rewrite (IH Hs), (escape_byte_unreserved c Hc). reflexivity.
Qed.

Lemma escape_byte_ok_all c : escape_byte_ok c = true.
Proof.
  destruct c as [[] [] [] [] [] [] [] []]; vm_compute; reflexivity.
Qed.

Lemma QueryUnescape_escape_byte c rest :
  url.QueryUnescape (url.escape_byte c +:+ rest)
  = option_map (String c) (url.QueryUnescape rest).
Proof.
  pose proof (escape_byte_ok_all c) as H. unfold escape_byte_ok in H.
  destruct (url.escape_byte c) as [|a [|hi [|lo [|x xs]]]]; try discriminate.
  - apply orb_true_iff in H as [H|H].
    + apply andb_true_iff in H as [Hc Ha].
      apply Ascii.eqb_eq in Hc, Ha. subst. reflexivity.
    + apply andb_true_iff in H as [H Hplus].
      apply andb_true_iff in H as [Ha Hpct].
      apply Ascii.eqb_eq in Ha. subst a.
      apply negb_true_iff in Hplus, Hpct.
      change (String c "" +:+ rest) with (String c rest).
      cbn [url.QueryUnescape]. rewrite Hpct, Hplus. reflexivity.
  - apply andb_true_iff in H as [Hp H].
    apply Ascii.eqb_eq in Hp. subst a.
    change (String "%" (String hi (String lo "")) +:+ rest)
      with (String "%" (String hi (String lo rest))).
    cbn [url.QueryUnescape].
    change (Ascii.eqb "%" "%") with true. cbv iota.
    destruct (url.unhex hi) as [h|]; [|discriminate].
    destruct (url.unhex lo) as [l|]; [|discriminate].
    apply Ascii.eqb_eq in H. rewrite H. reflexivity.
Qed.

Lemma QueryUnescape_QueryEscape s :
  url.QueryUnescape (url.QueryEscape s) = Some s.
Proof.
  induction s as [|c s IH]; [reflexivity|].
  cbn [url.QueryEscape]. rewrite QueryUnescape_escape_byte, IH. reflexivity.
Qed.

(** ** Parameters of the query *)

Lemma Values_Set_in key value (v : url.Values) :
  In (key, [value]) (url.Values_Set key value v).
Proof.
  induction v as [|[k vs] rest IH]; simpl; [auto|].
  destruct (String.compare key k); simpl; auto.
Qed.

Lemma Values_Set_keeps key value k vs (v : url.Values) :
  k <> key -> In (k, vs) v -> In (k, vs) (url.Values_Set key value v).
Proof.
  intros Hne. induction v as [|[k' vs'] rest IH]; simpl; [tauto|].
  intros [Heq|Hin].
  - injection Heq as -> ->.
    destruct (String.compare key k) eqn:Hcmp; simpl; auto.
    apply String.compare_eq_iff in Hcmp. congruence.
  - destruct (String.compare key k'); simpl; auto.
Qed.

Lemma Values_Set_if_keeps (b : bool) key value k vs (v : url.Values) :
  k <> key -> In (k, vs) v ->
  In (k, vs) (if b then url.Values_Set key value v else v).
Proof. destruct b; [apply Values_Set_keeps | auto]. Qed.

Lemma prefix_refl x : String.prefix x x = true.
Proof.
  induction x as [|c x IH]; [reflexivity|]. simpl.
  destruct (ascii_dec c c); [exact IH | contradiction].
Qed.

Lemma write_pair_keeps keyEscaped buf value x :
  strings.Contains buf x = true ->
  strings.Contains (url.write_pair keyEscaped buf value) x = true.
Proof.
  intros H. unfold url.write_pair. apply Contains_app_l.
  destruct buf; [exact H | by apply Contains_app_l].
Qed.

Lemma write_pair_adds keyEscaped buf value :
  strings.Contains (url.write_pair keyEscaped buf value)
    (keyEscaped +:+ "=" +:+ url.QueryEscape value) = true.
Proof.
  unfold url.write_pair. apply Contains_app_r, Contains_prefix, prefix_refl.
Qed.

Lemma write_pairs_keep keyEscaped vs buf x :
  strings.Contains buf x = true ->
  strings.Contains (fold_left (url.write_pair keyEscaped) vs buf) x = true.
Proof.
  revert buf. induction vs as [|v vs IH]; intros buf H; simpl; [exact H|].
  by apply IH, write_pair_keeps.
Qed.

Lemma write_pairs_add keyEscaped vs buf value :
  In value vs ->
  strings.Contains (fold_left (url.write_pair keyEscaped) vs buf)
    (keyEscaped +:+ "=" +:+ url.QueryEscape value) = true.
Proof.
  revert buf. induction vs as [|v vs IH]; intros buf; simpl; [tauto|].
  intros [->|Hin]; [|by apply IH].
  apply write_pairs_keep, write_pair_adds.
Qed.

Lemma Encode_from_keeps (v : url.Values) buf x :
  strings.Contains buf x = true ->
  strings.Contains
    (fold_left (fun buf kvs =>
                  fold_left (url.write_pair (url.QueryEscape kvs.1)) kvs.2 buf)
               v buf) x = true.
Proof.
  revert buf. induction v as [|[k vs] rest IH]; intros buf H; simpl; [exact H|].
  by apply IH, write_pairs_keep.
Qed.

Lemma Encode_from_adds (v : url.Values) buf key vs value :
  In (key, vs) v -> In value vs ->
  strings.Contains
    (fold_left (fun buf kvs =>
                  fold_left (url.write_pair (url.QueryEscape kvs.1)) kvs.2 buf)
               v buf)
    (url.QueryEscape key +:+ "=" +:+ url.QueryEscape value) = true.
Proof.
  revert buf. induction v as [|[k' vs'] rest IH]; intros buf; simpl; [tauto|].
  intros [Heq|Hin] Hv; [|by apply IH].
  injection Heq as -> ->.
  by apply Encode_from_keeps, write_pairs_add.
Qed.

(** Every value of the map occurs in the encoding, escaped, after its
    escaped key and ["="]. *)
Lemma Values_Encode_contains (v : url.Values) key vs value :
  In (key, vs) v -> In value vs ->
  strings.Contains (url.Values_Encode v)
    (url.QueryEscape key +:+ "=" +:+ url.QueryEscape value) = true.
Proof. apply Encode_from_adds. Qed.

Lemma eqb_empty_false s : s <> "" -> String.eqb s "" = false.
Proof. intros H. by apply String.eqb_neq. Qed.

Lemma string_neq_by_eqb (a b : string) : String.eqb a b = false -> a <> b.
Proof. apply String.eqb_neq. Qed.

Lemma nonempty_length {A} (l : list A) :
  l <> [] -> (0 <? length l)%nat = true.
Proof. destruct l; [contradiction | reflexivity]. Qed.

Lemma authCodeValues_nonce config state nonce :
  In ("nonce", [nonce]) (oauth2.authCodeValues config state [oidc.Nonce nonce]).
Proof. apply Values_Set_in. Qed.

Lemma authCodeValues_state config state nonce :
  state <> "" ->
  In ("state", [state]) (oauth2.authCodeValues config state [oidc.Nonce nonce]).
Proof.
  intros H. open_values.
  apply Values_Set_keeps; [by apply string_neq_by_eqb|].
  rewrite (eqb_empty_false _ H). cbn [negb]. apply Values_Set_in.
Qed.

Lemma authCodeValues_scope config state nonce :
  oauth2.Scopes config <> [] ->
  In ("scope", [strings.Join (oauth2.Scopes config) " "])
     (oauth2.authCodeValues config state [oidc.Nonce nonce]).
Proof.
  intros H. open_values.
  apply Values_Set_keeps; [by apply string_neq_by_eqb|].
  apply Values_Set_if_keeps; [by apply string_neq_by_eqb|].
  rewrite (nonempty_length _ H). apply Values_Set_in.
Qed.

Lemma authCodeValues_redirect_uri config state nonce :
  oauth2.RedirectURL config <> "" ->
  In ("redirect_uri", [oauth2.RedirectURL config])
     (oauth2.authCodeValues config state [oidc.Nonce nonce]).
Proof.
  intros H. open_values.
  apply Values_Set_keeps; [by apply string_neq_by_eqb|].
  apply Values_Set_if_keeps; [by apply string_neq_by_eqb|].
  apply Values_Set_if_keeps; [by apply string_neq_by_eqb|].
  rewrite (eqb_empty_false _ H). cbn [negb]. apply Values_Set_in.
Qed.

Lemma authCodeValues_client_id config state nonce :
  In ("client_id", [oauth2.ClientID config])
     (oauth2.authCodeValues config state [oidc.Nonce nonce]).
Proof.
  open_values.
  apply Values_Set_keeps; [by apply string_neq_by_eqb|].
  apply Values_Set_if_keeps; [by apply string_neq_by_eqb|].
  apply Values_Set_if_keeps; [by apply string_neq_by_eqb|].
  apply Values_Set_if_keeps; [by apply string_neq_by_eqb|].
  left. reflexivity.
Qed.

Lemma AuthCodeURL_contains config state opts key value :
  In (key, [value]) (oauth2.authCodeValues config state opts) ->
  strings.Contains (oauth2.AuthCodeURL config state opts)
    (url.QueryEscape key +:+ "=" +:+ url.QueryEscape value) = true.
Proof.
  intros H. unfold oauth2.AuthCodeURL.
  apply Contains_app_r, Contains_app_r.
  apply (Values_Encode_contains _ key [value] value H). by left.
Qed.

(** C9 as stated fails: a state with a space is written with ["+"], so
    the URL does not hold the state character for character. *)
Lemma C9_state_not_verbatim :
  run (AuthCodeURL Sample.plain "a b" "n1")
  = ([], Returns ("https://idp.example/auth?client_id=app&nonce=n1"
                  +:+ "&redirect_uri=https%3A%2F%2Fapp.example%2Fcb"
                  +:+ "&response_type=code&scope=openid+email&state=a+b"))
  /\ embeds_verbatim
       ("https://idp.example/auth?client_id=app&nonce=n1"
        +:+ "&redirect_uri=https%3A%2F%2Fapp.example%2Fcb"
        +:+ "&response_type=code&scope=openid+email&state=a+b")
       "a b" "n1" = false.
Proof. split; vm_compute; reflexivity. Qed.

(** C9, amended.  For a provider whose OAuth2 configuration is set,
    [AuthCodeURL] makes no call and returns, for the same state and nonce,
    the same URL from any log and in any environment.  The URL holds
    [nonce=], [client_id=], and, when the state, the redirect URL or the
    scopes are not empty, [state=], [redirect_uri=] and [scope=] (the
    scopes joined by a space), each followed by the query-escaped value.
    Escaping loses nothing: unescaping gives the value back.  A state and
    a nonce made of letters, digits and [-_.~] only are not changed by
    escaping, so they stand in the URL as they were given. *)
Theorem C9_AuthCodeURL o config state nonce :
  OAuth2Config o = Some config ->
  let url := oauth2.AuthCodeURL config state [oidc.Nonce nonce] in
  (forall log, AuthCodeURL o state nonce log = (log, Returns url))
  /\ strings.Contains url ("nonce=" +:+ url.QueryEscape nonce) = true
  /\ (state <> "" ->
      strings.Contains url ("state=" +:+ url.QueryEscape state) = true)
  /\ strings.Contains url
       ("client_id=" +:+ url.QueryEscape (oauth2.ClientID config)) = true
  /\ (oauth2.RedirectURL config <> "" ->
      strings.Contains url
        ("redirect_uri=" +:+ url.QueryEscape (oauth2.RedirectURL config)) = true)
  /\ (oauth2.Scopes config <> [] ->
      strings.Contains url
        ("scope=" +:+ url.QueryEscape (strings.Join (oauth2.Scopes config) " "))
      = true)
  /\ url.QueryUnescape (url.QueryEscape state) = Some state
  /\ url.QueryUnescape (url.QueryEscape nonce) = Some nonce
  /\ (unreserved nonce = true ->
      strings.Contains url ("nonce=" +:+ nonce) = true)
  /\ (unreserved state = true -> state <> "" ->
      strings.Contains url ("state=" +:+ state) = true).
Proof.
  intros Hcfg url.
  assert (Hnonce : strings.Contains url ("nonce=" +:+ url.QueryEscape nonce) = true).
  { apply (AuthCodeURL_contains config state _ "nonce" nonce).
    apply authCodeValues_nonce. }
  assert (Hstate : state <> "" ->
            strings.Contains url ("state=" +:+ url.QueryEscape state) = true).
  { intros H. apply (AuthCodeURL_contains config state _ "state" state).
    by apply authCodeValues_state. }
  repeat split.
  - intros log. unfold AuthCodeURL. rewrite Hcfg. reflexivity.
  - exact Hnonce.
  - exact Hstate.
  - apply (AuthCodeURL_contains config state _ "client_id").
    apply authCodeValues_client_id.
  - intros H. apply (AuthCodeURL_contains config state _ "redirect_uri").
    by apply authCodeValues_redirect_uri.
  - intros H. apply (AuthCodeURL_contains config state _ "scope").
    by apply authCodeValues_scope.
  - apply QueryUnescape_QueryEscape.
  - apply QueryUnescape_QueryEscape.
  - intros H. rewrite (QueryEscape_unreserved nonce H) in Hnonce.
    exact Hnonce.
  - intros H Hne. specialize (Hstate Hne).
    rewrite (QueryEscape_unreserved state H) in Hstate. exact Hstate.
Qed.

(** State ["s1"] and nonce ["n1"]: both stand in the URL as given. *)
Lemma C9_AuthCodeURL_witness :
  run (AuthCodeURL Sample.plain "s1" "n1")
  = ([], Returns ("https://idp.example/auth?client_id=app&nonce=n1"
                  +:+ "&redirect_uri=https%3A%2F%2Fapp.example%2Fcb"
                  +:+ "&response_type=code&scope=openid+email&state=s1"))
  /\ strings.Contains
       (oauth2.AuthCodeURL Sample.config "s1" [oidc.Nonce "n1"])
       "state=s1" = true
  /\ strings.Contains
       (oauth2.AuthCodeURL Sample.config "s1" [oidc.Nonce "n1"])
       "nonce=n1" = true.
Proof.
  destruct (C9_AuthCodeURL Sample.plain Sample.config "s1" "n1" eq_refl)
    as (Hrun & _ & _ & _ & _ & _ & _ & _ & Hnonce & Hstate).
  split; [|split].
  - unfold run. rewrite Hrun. vm_compute. reflexivity.
  - apply Hstate; [reflexivity | discriminate].
  - apply Hnonce. reflexivity.
Defined.

(** ** Errors, calls and results of AuthenticateCode *)

Lemma idTokenClaims_fails env o ctx rawIDToken log err :
  snd (idTokenClaims env o ctx rawIDToken log) = Fails err ->
  exists cause,
    err = fmt_Errorf_w "failed to verify id token" cause
    \/ err = fmt_Errorf_w "failed to decode id token claims" cause.
Proof.
  unfold_ops.
  repeat (break_match; simpl in *; try congruence);
    intros H; injection H as <-; eauto.
Qed.

Lemma userInfoClaims_fails env o ctx token claims log err :
  snd (userInfoClaims env o ctx token claims log) = Fails err ->
  exists cause,
    err = fmt_Errorf_w "failed to fetch userinfo" cause
    \/ err = fmt_Errorf_w "failed to decode userinfo claims" cause.
Proof.
  unfold_ops.
  repeat (break_match; simpl in *; try congruence);
    intros H; injection H as <-; eauto.
Qed.

Lemma identityOf_fails o claims err :
  identityOf o claims = inl err ->
  err = errors_New ("missing required claim " +:+ quoted "sub").
Proof.
  unfold identityOf.
  destruct (string_claim claims "sub") as [subject []]; simpl; congruence.
Qed.

(** The outcome of the run, stage by stage: what [resolveClaims] gave is
    either passed to [identityOf] or is the outcome itself. *)
Lemma AuthenticateCode_stages env o code :
  run (AuthenticateCode env o code)
  = match run (resolveClaims env o code) with
    | (log, Returns claims) =>
        (log, match identityOf o claims with
              | inl err => Fails err
              | inr id => Returns id
              end)
    | (log, Fails err) => (log, Fails err)
    | (log, Panics) => (log, Panics)
    | (log, Blocks) => (log, Blocks)
    end.
Proof.
  unfold run, AuthenticateCode, bind.
  destruct (resolveClaims env o code []) as [log [claims| | |]]; try reflexivity.
  unfold lift, ret, fail. destruct (identityOf o claims); reflexivity.
Qed.

Lemma resolveClaims_fails env o code err :
  snd (run (resolveClaims env o code)) = Fails err ->
  AuthenticateCode_error err.
Proof.
  unfold run, resolveClaims. set (ctx := requestContext o).
  destruct (OAuth2Config o) as [config|]; [|discriminate].
  unfold bind at 1, wrap at 1, call at 1.
  destruct (Exchange env ctx config code) as [token|cause| |]; simpl;
    try discriminate.
  2:{ intros H. injection H as <-. left. eauto. }
  destruct (string_extra token "id_token") as [rawIDToken []]; simpl.
  2:{ intros H. injection H as <-. right. left. reflexivity. }
  unfold bind.
  pose proof (idTokenClaims_fails env o ctx rawIDToken [CallExchange ctx code])
    as Hid.
  destruct (idTokenClaims env o ctx rawIDToken [CallExchange ctx code])
    as [log1 [claims|cause| |]]; simpl in *; try discriminate.
  2:{ intros H. injection H as <-.
      destruct (Hid _ eq_refl) as [c [->| ->]];
        unfold AuthenticateCode_error; eauto 8. }
  pose proof (userInfoClaims_fails env o ctx token claims log1) as Hui.
  destruct (userInfoClaims env o ctx token claims log1)
    as [log2 [claims2|cause| |]]; simpl in *; try discriminate.
  intros H. injection H as <-.
  destruct (Hui _ eq_refl) as [c [->| ->]];
    unfold AuthenticateCode_error; eauto 10.
Qed.

(** X1.  Every error that [AuthenticateCode] returns is one of its own
    seven: an error of a library never comes back unwrapped, and no
    other message is produced. *)
Theorem X1_errors_are_wrapped env o code err :
  snd (run (AuthenticateCode env o code)) = Fails err ->
  AuthenticateCode_error err.
Proof.
  rewrite AuthenticateCode_stages.
  pose proof (resolveClaims_fails env o code) as Hres.
  destruct (run (resolveClaims env o code)) as [log [claims|cause| |]];
    simpl in *; try discriminate.
  - destruct (identityOf o claims) as [e|id] eqn:Hid; [|discriminate].
    intros H. injection H as <-.
    rewrite (identityOf_fails o claims e Hid).
    unfold AuthenticateCode_error. tauto.
  - intros H. injection H as <-. by apply Hres.
Qed.

(** A refused code: the cause is wrapped. *)
Lemma X1_errors_are_wrapped_witness :
  AuthenticateCode_error
    (fmt_Errorf_w "oidc: failed to get token"
       (errors_New "oauth2: cannot fetch token: 400 Bad Request")).
Proof.
  apply (X1_errors_are_wrapped Sample.env Sample.plain "c-refused").
  reflexivity.
Defined.

Lemma string_extra_ok token key rawValue :
  string_extra token key = (rawValue, true) ->
  oauth2.Extra token key = VString rawValue.
Proof.
  unfold string_extra.
  destruct (oauth2.Extra token key); simpl; congruence.
Qed.

(** X2.  The calls of a run come in a fixed sequence.  Without an OAuth2
    configuration nothing is called and the run panics.  Otherwise the
    token exchange comes first and only once; it is followed by at most
    one call for the identity-token claims, and that by the userinfo
    request, if enabled. *)
Theorem X2_call_sequence env o code :
  let ctx := requestContext o in
  let log := fst (run (AuthenticateCode env o code)) in
  match OAuth2Config o with
  | None => run (AuthenticateCode env o code) = ([], Panics)
  | Some config =>
      log = [CallExchange ctx code]
      \/ exists token rawIDToken,
           Exchange env ctx config code = Returns token
           /\ oauth2.Extra token "id_token" = VString rawIDToken
           /\ (log = [CallExchange ctx code; claims_call o ctx rawIDToken]
               \/ log = ([CallExchange ctx code; claims_call o ctx rawIDToken]
                         ++ userinfo_calls o ctx token)%list)
  end.
Proof.
  intros ctx log.
  assert (Hlog : log = fst (run (AuthenticateCode env o code))) by reflexivity.
  clearbody log. rewrite AuthenticateCode_stages in Hlog |- *.
  unfold run, resolveClaims in Hlog |- *. fold ctx in Hlog |- *.
  destruct (OAuth2Config o) as [config|]; [|reflexivity].
  unfold bind at 1, wrap at 1, call at 1 in Hlog.
  destruct (Exchange env ctx config code) as [token|cause| |] eqn:Hex;
    simpl in Hlog; auto.
  destruct (string_extra token "id_token") as [rawIDToken []] eqn:Hextra;
    simpl in Hlog; auto.
  apply string_extra_ok in Hextra.
  right. exists token, rawIDToken. split; [reflexivity|]. split; [exact Hextra|].
  unfold bind in Hlog.
  pose proof (idTokenClaims_log env o ctx rawIDToken [CallExchange ctx code])
    as Hlog1.
  destruct (idTokenClaims env o ctx rawIDToken [CallExchange ctx code])
    as [log1 [claims|cause| |]]; simpl in Hlog1; subst log1; simpl in Hlog;
    auto.
  pose proof (userInfoClaims_log env o ctx token claims
                [CallExchange ctx code; claims_call o ctx rawIDToken]) as Hlog2.
  destruct (userInfoClaims env o ctx token claims _)
    as [log2 [claims2|cause| |]]; simpl in Hlog2; subst log2; simpl in Hlog;
    auto.
Qed.

(** X3.  A run that returns an identity went through every stage: the
    configuration is set, the exchange returned a token with an
    [id_token] string, the log holds the exchange, the claims call and
    the userinfo request if enabled, and nothing else; and the subject of
    the identity is the string under [sub] of the resolved claims. *)
Theorem X3_success_path env o code log id :
  run (AuthenticateCode env o code) = (log, Returns id) ->
  let ctx := requestContext o in
  exists config token rawIDToken claims,
    OAuth2Config o = Some config
    /\ Exchange env ctx config code = Returns token
    /\ oauth2.Extra token "id_token" = VString rawIDToken
    /\ log = ([CallExchange ctx code; claims_call o ctx rawIDToken]
              ++ userinfo_calls o ctx token)%list
    /\ run (resolveClaims env o code) = (log, Returns claims)
    /\ claims !! "sub" = Some (VString (Sub id)).
Proof.
  intros Hrun ctx. rewrite AuthenticateCode_stages in Hrun.
  destruct (run (resolveClaims env o code)) as [logr [claims|cause| |]] eqn:Hres;
    try discriminate.
  destruct (identityOf o claims) as [e|id'] eqn:Hid; [discriminate|].
  injection Hrun as <- <-.
  assert (Hsub : claims !! "sub" = Some (VString (Sub id'))).
  { unfold identityOf, string_claim in Hid.
    destruct (claims !! "sub") as [[]|]; simpl in Hid; try discriminate.
    injection Hid as <-. reflexivity. }
  unfold run, resolveClaims in Hres. fold ctx in Hres.
  destruct (OAuth2Config o) as [config|]; [|discriminate].
  unfold bind at 1, wrap at 1, call at 1 in Hres.
  destruct (Exchange env ctx config code) as [token|cause| |] eqn:Hex;
    simpl in Hres; try discriminate.
  destruct (string_extra token "id_token") as [rawIDToken []] eqn:Hextra;
    simpl in Hres; [|discriminate].
  apply string_extra_ok in Hextra.
  exists config, token, rawIDToken, claims.
  split; [reflexivity|]. split; [exact Hex|]. split; [exact Hextra|].
  unfold bind in Hres.
  pose proof (idTokenClaims_log env o ctx rawIDToken [CallExchange ctx code])
    as Hlog1.
  destruct (idTokenClaims env o ctx rawIDToken [CallExchange ctx code])
    as [log1 [claims1|cause| |]]; simpl in Hlog1; subst log1;
    try discriminate.
  pose proof (userInfoClaims_log env o ctx token claims1
                [CallExchange ctx code; claims_call o ctx rawIDToken]) as Hlog2.
  rewrite Hres in Hlog2. simpl in Hlog2. subst logr.
  split; [reflexivity|]. split; [reflexivity | exact Hsub].
Qed.

Lemma X3_success_path_witness :
  exists claims : jwt.MapClaims,
    run (resolveClaims Sample.env Sample.plain "c-alice")
    = ([CallExchange context.TODO "c-alice"; CallParseUnverified "h.alice.s"],
       Returns claims)
    /\ claims !! "sub" = Some (VString "u-1").
Proof.
  destruct (X3_success_path Sample.env Sample.plain "c-alice"
              [CallExchange context.TODO "c-alice";
               CallParseUnverified "h.alice.s"]
              {| Sub := "u-1"; PreferredUsername := "Alice"; Email := "" |})
    as (config & token & rawIDToken & claims & _ & _ & _ & _ & Hres & Hsub).
  - vm_compute. reflexivity.
  - exists claims. split; [exact Hres | exact Hsub].
Defined.

(** ** The userinfo response and the subject *)

(** The userinfo stage, once the response has arrived and was read: the
    body is decoded into the claims. *)
Lemma userInfoClaims_body env o ctx token claims data log :
  GetUserInfo o = true ->
  userinfo_body env o ctx token = Some data ->
  userInfoClaims env o ctx token claims log
  = ((log ++ userinfo_calls o ctx token)%list,
     match json.Unmarshal data claims with
     | inl err => Fails (fmt_Errorf_w "failed to decode userinfo claims" err)
     | inr merged => Returns merged
     end).
Proof.
  intros Hget Hbody. unfold userinfo_body in Hbody.
  unfold userInfoClaims, userinfo_calls. rewrite Hget.
  destruct (Provider o) as [provider|].
  - destruct (UserInfo env provider ctx token) as [userInfo| | |];
      try discriminate.
    unfold bind, wrap, call. simpl. rewrite Hbody. simpl.
    destruct (json.Unmarshal data claims); reflexivity.
  - destruct (Get env ctx token (UserInfoURL (Endpoint o))) as [resp| | |];
      try discriminate.
    destruct (net_http.Body resp) as [body| | |] eqn:Hdata; try discriminate.
    injection Hbody as ->.
    unfold bind, wrap, call, ioutil_ReadAll. simpl. rewrite Hdata. simpl.
    destruct (json.Unmarshal data claims); reflexivity.
Qed.



(** X6.  A userinfo response whose body is the JSON null is no error of
    the userinfo stage: decoding it empties the claims, those of the
    identity token included, and the call ends with the missing-subject
    error. *)
Theorem X6_null_userinfo_clears_claims
    env o config code token rawIDToken log idclaims :
  OAuth2Config o = Some config ->
  Exchange env (requestContext o) config code = Returns token ->
  oauth2.Extra token "id_token" = VString rawIDToken ->
  idTokenClaims env o (requestContext o) rawIDToken
    [CallExchange (requestContext o) code] = (log, Returns idclaims) ->
  GetUserInfo o = true ->
  userinfo_body env o (requestContext o) token = Some (json.Denotes VNil) ->
  let log' := (log ++ userinfo_calls o (requestContext o) token)%list in
  run (resolveClaims env o code) = (log', Returns ∅)
  /\ run (AuthenticateCode env o code)
     = (log', Fails (errors_New ("missing required claim " +:+ quoted "sub"))).
Proof.
  intros Hcfg Hex Hid Hclaims Hget Hbody log'.
  assert (Hres : run (resolveClaims env o code) = (log', Returns ∅)).
  { rewrite (resolveClaims_unfold env o config code token rawIDToken Hcfg Hex Hid).
    unfold bind. rewrite Hclaims.
    by rewrite (userInfoClaims_body env o _ token idclaims _ log Hget Hbody). }
  split; [exact Hres|].
  rewrite AuthenticateCode_stages, Hres. reflexivity.
Qed.

Lemma X6_null_userinfo_clears_claims_witness :
  run (AuthenticateCode (UserinfoSample.answering (json.Denotes VNil))
         (Sample.with_userinfo Sample.plain) "c-alice")
  = ([CallExchange context.TODO "c-alice"; CallParseUnverified "h.alice.s";
      CallGet context.TODO (Sample.token_of (VString "h.alice.s"))
        "https://idp.example/userinfo"],
     Fails (errors_New ("missing required claim " +:+ quoted "sub"))).
Proof.
  exact (proj2 (X6_null_userinfo_clears_claims
                  (UserinfoSample.answering (json.Denotes VNil))
                  (Sample.with_userinfo Sample.plain) Sample.config "c-alice"
                  (Sample.token_of (VString "h.alice.s")) "h.alice.s"
                  [CallExchange context.TODO "c-alice";
                   CallParseUnverified "h.alice.s"]
                  (json.store ∅ Sample.alice)
                  eq_refl eq_refl eq_refl eq_refl eq_refl eq_refl)).
Defined.

(** ** What a run depends on *)

(** X7.  The TLS choice covers every call of a run: each call that takes
    a context finds in it the HTTP client without certificate checks when
    [InsecureSkipVerify] is set, and no client of its own otherwise. *)
Theorem X7_tls_choice_on_every_call env o code :
  Forall (fun c =>
            forall ctx, call_context c = Some ctx ->
              context.Value ctx context.oauth2_HTTPClient
              = if InsecureSkipVerify o
                then Some {| http.InsecureSkipVerify := true |} else None)
         (fst (run (AuthenticateCode env o code))).
Proof.
  pose proof (AuthenticateCode_made_under env o code) as H.
  unfold made_under in H. rewrite Forall_forall in H |- *.
  intros c Hin ctx Hctx. rewrite (H c Hin ctx Hctx).
  apply requestContext_client.
Qed.

Lemma idTokenClaims_env env env' o ctx rawIDToken log :
  (forall verifier, Verifier o = Some verifier -> Verify env = Verify env') ->
  (Verifier o = None ->
   ParseUnverified env = ParseUnverified env' /\ Valid env = Valid env') ->
  idTokenClaims env o ctx rawIDToken log
  = idTokenClaims env' o ctx rawIDToken log.
Proof.
  intros Hsome Hnone. unfold idTokenClaims.
  destruct (Verifier o) as [verifier|].
  - by rewrite (Hsome verifier eq_refl).
  - destruct (Hnone eq_refl) as [-> ->]. reflexivity.
Qed.

Lemma userInfoClaims_env env env' o ctx token claims log :
  (GetUserInfo o = true -> forall provider, Provider o = Some provider ->
   UserInfo env = UserInfo env') ->
  (GetUserInfo o = true -> Provider o = None -> Get env = Get env') ->
  userInfoClaims env o ctx token claims log
  = userInfoClaims env' o ctx token claims log.
Proof.
  intros Hsome Hnone. unfold userInfoClaims.
  destruct (GetUserInfo o); [|reflexivity].
  destruct (Provider o) as [provider|].
  - by rewrite (Hsome eq_refl provider eq_refl).
  - by rewrite (Hnone eq_refl eq_refl).
Qed.

(** X8.  A run depends on the upstream only through the calls that the
    configuration selects: two environments with the same token exchange
    give the same log and outcome as soon as they agree on [Verify] when
    a verifier is set, on [ParseUnverified] and [Valid] when none is, and,
    with userinfo enabled, on [UserInfo] when a provider object is set
    and on [Get] when none is.  In particular a failed verification never
    falls back on unverified parsing, and with userinfo disabled the
    userinfo endpoint plays no part. *)
Theorem X8_only_selected_calls_matter env env' o code :
  Exchange env = Exchange env' ->
  (forall verifier, Verifier o = Some verifier -> Verify env = Verify env') ->
  (Verifier o = None ->
   ParseUnverified env = ParseUnverified env' /\ Valid env = Valid env') ->
  (GetUserInfo o = true -> forall provider, Provider o = Some provider ->
   UserInfo env = UserInfo env') ->
  (GetUserInfo o = true -> Provider o = None -> Get env = Get env') ->
  run (AuthenticateCode env o code) = run (AuthenticateCode env' o code).
Proof.
  intros Hex Hverify Hparse Hui Hget.
  assert (Hres : run (resolveClaims env o code)
                 = run (resolveClaims env' o code)).
  { unfold run, resolveClaims. rewrite Hex.
    destruct (OAuth2Config o) as [config|]; [|reflexivity].
    apply bind_ext. intros token log.
    destruct (string_extra token "id_token") as [rawIDToken []]; simpl;
      [|reflexivity].
    unfold bind.
    rewrite (idTokenClaims_env env env' o _ rawIDToken log Hverify Hparse).
    destruct (idTokenClaims env' o (requestContext o) rawIDToken log)
      as [log' [claims| | |]]; try reflexivity.
    by apply userInfoClaims_env. }
  by rewrite !AuthenticateCode_stages, Hres.
Qed.

(** No verifier, userinfo disabled: an upstream whose verifier and
    userinfo endpoint never answer gives the same identity. *)
Lemma X8_only_selected_calls_matter_witness :
  run (AuthenticateCode UserinfoSample.silent Sample.plain "c-alice")
  = ([CallExchange context.TODO "c-alice"; CallParseUnverified "h.alice.s"],
     Returns {| Sub := "u-1"; PreferredUsername := "Alice"; Email := "" |}).
Proof.
  rewrite <- (X8_only_selected_calls_matter Sample.env UserinfoSample.silent
                Sample.plain "c-alice" eq_refl).
  - vm_compute. reflexivity.
  - intros verifier H. discriminate H.
  - intros _. split; reflexivity.
  - intros H. discriminate H.
  - intros H. discriminate H.
Defined.

(** X9.  Of the provider record, [AuthenticateCode] reads the OAuth2
    configuration, the verifier, the provider object, the two flags, the
    two claim keys and the userinfo URL, and [AuthCodeURL] reads the
    OAuth2 configuration only.  The issuer, the client id and secret, the
    redirect URL, the scopes and the other endpoint URLs of the record
    itself change nothing. *)
Theorem X9_fields_read env o o' code state nonce :
  OAuth2Config o = OAuth2Config o' ->
  Verifier o = Verifier o' ->
  Provider o = Provider o' ->
  GetUserInfo o = GetUserInfo o' ->
  InsecureSkipVerify o = InsecureSkipVerify o' ->
  EmailKey o = EmailKey o' ->
  PreferredUsernameKey o = PreferredUsernameKey o' ->
  UserInfoURL (Endpoint o) = UserInfoURL (Endpoint o') ->
  run (AuthenticateCode env o code) = run (AuthenticateCode env o' code)
  /\ run (AuthCodeURL o state nonce) = run (AuthCodeURL o' state nonce).
Proof.
  destruct o as [? ? ? [] ? ? ? ? ? ? ? ? ?], o' as [? ? ? [] ? ? ? ? ? ? ? ? ?].
  simpl. intros -> -> -> -> -> -> -> ->. split; reflexivity.
Qed.

(** A record whose issuer, client data, scopes and endpoints differ. *)
Lemma X9_fields_read_witness :
  run (AuthenticateCode Sample.env UserinfoSample.renamed "c-alice")
  = ([CallExchange context.TODO "c-alice"; CallParseUnverified "h.alice.s"],
     Returns {| Sub := "u-1"; PreferredUsername := "Alice"; Email := "" |})
  /\ run (AuthCodeURL UserinfoSample.renamed "s1" "n1")
     = run (AuthCodeURL Sample.plain "s1" "n1").
Proof.
  destruct (X9_fields_read Sample.env Sample.plain UserinfoSample.renamed
              "c-alice" "s1" "n1"
              eq_refl eq_refl eq_refl eq_refl eq_refl eq_refl eq_refl eq_refl)
    as [Hcode Hurl].
  split.
  - rewrite <- Hcode. vm_compute. reflexivity.
  - symmetry. exact Hurl.
Defined.

(** ** The query of the authorization URL *)

Lemma string_app_assoc (a b c : string) : (a +:+ b) +:+ c = a +:+ (b +:+ c).
Proof.
  induction a as [|x a IH]; [reflexivity|].
  change (String x ((a +:+ b) +:+ c) = String x (a +:+ (b +:+ c))).
  by rewrite IH.
Qed.

Lemma string_app_nil_r (a : string) : a +:+ "" = a.
Proof.
  induction a as [|x a IH]; [reflexivity|].
  change (String x (a +:+ "") = String x a). by rewrite IH.
Qed.

Lemma written_cons buf piece pieces :
  piece <> "" ->
  written buf (piece :: pieces)
  = written (match buf with
             | EmptyString => buf
             | _ => buf +:+ "&"
             end +:+ piece) pieces.
Proof.
  intros Hne. destruct buf as [|c buf]; destruct pieces as [|p pieces];
    try reflexivity.
  - destruct piece as [|d piece]; [contradiction | reflexivity].
  - change (String c buf +:+ "&" +:+ piece
            = String c ((buf +:+ "&") +:+ piece)).
    by rewrite string_app_assoc.
  - change (String c buf +:+ "&" +:+ piece +:+ "&" +:+ String.concat "&" (p :: pieces)
            = String c (((buf +:+ "&") +:+ piece) +:+ "&"
                        +:+ String.concat "&" (p :: pieces))).
    by rewrite !string_app_assoc.
Qed.

Lemma write_pairs_written keyEscaped values buf :
  fold_left (url.write_pair keyEscaped) values buf
  = written buf (map (fun value =>
                        keyEscaped +:+ "=" +:+ url.QueryEscape value) values).
Proof.
  revert buf. induction values as [|value values IH]; intros buf;
    [reflexivity|].
  cbn [fold_left map]. rewrite IH, written_cons; [reflexivity|].
  destruct keyEscaped; discriminate.
Qed.

Lemma written_app buf pieces pieces' :
  Forall (fun piece => piece <> "") pieces ->
  written (written buf pieces) pieces' = written buf (pieces ++ pieces').
Proof.
  intros Hall. revert buf. induction Hall as [|piece pieces Hne Hall IH];
    intros buf; [reflexivity|].
  cbn [app]. by rewrite !written_cons, IH.
Qed.

Lemma pieces_nonempty keyEscaped values :
  Forall (fun piece => piece <> "")
         (map (fun value => keyEscaped +:+ "=" +:+ url.QueryEscape value)
              values).
Proof.
  apply Forall_forall. intros piece Hin.
  apply list_elem_of_In, in_map_iff in Hin as (value & <- & _).
  destruct keyEscaped; discriminate.
Qed.

(** [Encode] joins the pieces with ["&"]. *)
Lemma Values_Encode_pieces (v : url.Values) :
  url.Values_Encode v = String.concat "&" (query_pieces v).
Proof.
  unfold url.Values_Encode.
  assert (H : forall buf,
            fold_left (fun buf kvs =>
                         fold_left (url.write_pair (url.QueryEscape kvs.1))
                                   kvs.2 buf) v buf
            = written buf (query_pieces v)).
  { induction v as [|[key values] rest IH]; intros buf; [reflexivity|].
    cbn [fold_left]. rewrite IH. cbn [fst snd].
    rewrite write_pairs_written, written_app; [reflexivity|].
    apply pieces_nonempty. }
  rewrite H. unfold written. destruct (query_pieces v); reflexivity.
Qed.

(** X11.  The authorization URL in full: the authorization endpoint, a
    ["?"] (an ["&"] when the endpoint already has one), and the parameters
    in the order [client_id], [nonce], [redirect_uri], [response_type],
    [scope], [state], each value escaped.  [redirect_uri], [scope] and
    [state] are left out when the redirect URL, the scopes or the state
    are empty; [nonce] is written even when it is empty. *)
Theorem X11_url_in_full o config state nonce :
  OAuth2Config o = Some config ->
  run (AuthCodeURL o state nonce)
  = ([], Returns
       (oauth2.AuthURL config
        +:+ (if strings.Contains (oauth2.AuthURL config) "?" then "&" else "?")
        +:+ "client_id=" +:+ url.QueryEscape (oauth2.ClientID config)
        +:+ "&nonce=" +:+ url.QueryEscape nonce
        +:+ (if String.eqb (oauth2.RedirectURL config) "" then ""
             else "&redirect_uri="
                  +:+ url.QueryEscape (oauth2.RedirectURL config))
        +:+ "&response_type=code"
        +:+ (match oauth2.Scopes config with
             | [] => ""
             | _ => "&scope="
                    +:+ url.QueryEscape
                          (strings.Join (oauth2.Scopes config) " ")
             end)
        +:+ (if String.eqb state "" then ""
             else "&state=" +:+ url.QueryEscape state))).
Proof.
  intros Hcfg. unfold run, AuthCodeURL. rewrite Hcfg. unfold ret.
  do 2 f_equal.
  unfold oauth2.AuthCodeURL. f_equal. f_equal.
  rewrite Values_Encode_pieces.
  unfold oauth2.authCodeValues. cbv zeta. cbn [fold_left].
  unfold oauth2.setValue, oidc.Nonce. cbn [oauth2.key oauth2.value].
  destruct (String.eqb (oauth2.RedirectURL config) "");
    destruct (oauth2.Scopes config) as [|scope scopes];
    destruct (String.eqb state "");
    rewrite ?string_app_assoc, ?string_app_nil_r; reflexivity.
Qed.

(** An empty state and an empty nonce. *)
Lemma X11_url_in_full_witness :
  run (AuthCodeURL Sample.plain "" "")
  = ([], Returns ("https://idp.example/auth?client_id=app&nonce="
                  +:+ "&redirect_uri=https%3A%2F%2Fapp.example%2Fcb"
                  +:+ "&response_type=code&scope=openid+email")).
Proof.
  rewrite (X11_url_in_full Sample.plain Sample.config "" "" eq_refl).
  vm_compute. reflexivity.
Defined.

Lemma all_bytes_app p a b :
  all_bytes p (a +:+ b) = all_bytes p a && all_bytes p b.
Proof.
  induction a as [|c a IH]; [reflexivity|].
  change (p c && all_bytes p (a +:+ b) = p c && all_bytes p a && all_bytes p b).
  by rewrite IH, andb_assoc.
Qed.

Lemma escape_byte_safe c : all_bytes query_safe (url.escape_byte c) = true.
Proof.
  destruct c as [[] [] [] [] [] [] [] []]; vm_compute; reflexivity.
Qed.

Lemma QueryEscape_safe s : all_bytes query_safe (url.QueryEscape s) = true.
Proof.
  induction s as [|c s IH]; [reflexivity|].
  cbn [url.QueryEscape]. by rewrite all_bytes_app, escape_byte_safe, IH.
Qed.

Lemma count_byte_app c a b :
  count_byte c (a +:+ b) = count_byte c a + count_byte c b.
Proof.
  induction a as [|d a IH]; [reflexivity|].
  change ((if Ascii.eqb c d then 1 else 0) + count_byte c (a +:+ b)
          = (if Ascii.eqb c d then 1 else 0) + count_byte c a + count_byte c b).
  rewrite IH. lia.
Qed.

Lemma count_byte_safe c s :
  query_safe c = false -> all_bytes query_safe s = true -> count_byte c s = 0.
Proof.
  intros Hc. induction s as [|d s IH]; [reflexivity|].
  cbn [all_bytes count_byte]. intros H.
  apply andb_true_iff in H as [Hd Hs]. rewrite (IH Hs).
  destruct (Ascii.eqb c d) eqn:E; [|reflexivity].
  apply Ascii.eqb_eq in E. congruence.
Qed.

(** One piece holds its ["="] and no other byte that escaping removes. *)
Lemma count_byte_piece c key value :
  query_safe c = false ->
  count_byte c (url.QueryEscape key +:+ "=" +:+ url.QueryEscape value)
  = if Ascii.eqb c "=" then 1 else 0.
Proof.
  intros Hc. rewrite !count_byte_app.
  rewrite !(count_byte_safe c _ Hc (QueryEscape_safe _)).
  cbn [count_byte]. lia.
Qed.

Lemma count_byte_concat c pieces n :
  Forall (fun piece => count_byte c piece = n) pieces ->
  count_byte c (String.concat "&" pieces)
  = n * length pieces
    + (if Ascii.eqb c "&" then Nat.pred (length pieces) else 0).
Proof.
  induction 1 as [|piece pieces Hp Hall IH].
  { cbn [String.concat length count_byte Nat.pred].
    destruct (Ascii.eqb c "&"); lia. }
  destruct pieces as [|piece' pieces].
  - cbn [String.concat length Nat.pred]. rewrite Hp.
    destruct (Ascii.eqb c "&"); lia.
  - change (String.concat "&" (piece :: piece' :: pieces))
      with (piece +:+ "&" +:+ String.concat "&" (piece' :: pieces)).
    rewrite !count_byte_app, IH, Hp. cbn [count_byte length Nat.pred].
    destruct (Ascii.eqb c "&"); lia.
Qed.

Lemma Values_Set_single key value v :
  single_valued v -> single_valued (url.Values_Set key value v).
Proof.
  unfold single_valued. induction 1 as [|[k vs] rest Hk Hall IH]; simpl.
  - repeat constructor.
  - destruct (String.compare key k); repeat constructor; auto.
Qed.

Lemma authCodeValues_single config state nonce :
  single_valued (oauth2.authCodeValues config state [oidc.Nonce nonce]).
Proof.
  open_values. apply Values_Set_single.
  assert (H0 : single_valued [("client_id", [oauth2.ClientID config]);
                              ("response_type", ["code"])])
    by repeat constructor.
  repeat match goal with
         | |- single_valued (if ?b then _ else _) => destruct b
         | |- single_valued (url.Values_Set _ _ _) => apply Values_Set_single
         end; exact H0.
Qed.

Lemma query_pieces_single c (v : url.Values) :
  query_safe c = false ->
  single_valued v ->
  length (query_pieces v) = length v
  /\ Forall (fun piece =>
               count_byte c piece = if Ascii.eqb c "=" then 1 else 0)
            (query_pieces v).
Proof.
  intros Hc. unfold single_valued, query_pieces.
  induction 1 as [|[key values] rest Hk Hall [IHlen IHall]];
    [split; [reflexivity | constructor]|].
  cbn [fst snd] in Hk.
  destruct values as [|value [|? ?]]; try discriminate.
  cbn [flat_map map app fst snd length]. split; [by rewrite IHlen|].
  constructor; [by apply count_byte_piece | exact IHall].
Qed.

Lemma query_counts config state nonce :
  let values := oauth2.authCodeValues config state [oidc.Nonce nonce] in
  let query := url.Values_Encode values in
  count_byte "=" query = length values
  /\ S (count_byte "&" query) = length values
  /\ count_byte "#" query = 0
  /\ count_byte "?" query = 0
  /\ count_byte " " query = 0
  /\ count_byte "/" query = 0
  /\ 3 <= length values <= 6.
Proof.
  intros values query.
  pose proof (authCodeValues_single config state nonce) as Hsingle.
  fold values in Hsingle.
  assert (Hcount : forall c, query_safe c = false ->
            count_byte c query
            = (if Ascii.eqb c "=" then 1 else 0) * length values
              + (if Ascii.eqb c "&" then Nat.pred (length values) else 0)).
  { intros c Hc. unfold query. rewrite Values_Encode_pieces.
    destruct (query_pieces_single c values Hc Hsingle) as [Hlen Hall].
    by rewrite (count_byte_concat c _ _ Hall), Hlen. }
  assert (Hlen : 3 <= length values <= 6).
  { unfold values. open_values.
    destruct (String.eqb (oauth2.RedirectURL config) "");
      destruct (oauth2.Scopes config) as [|scope scopes];
      destruct (String.eqb state ""); simpl; lia. }
  repeat split; try (rewrite Hcount by reflexivity; simpl; lia); lia.
Qed.

(** X10.  Neither the state nor the nonce, nor any configured value, can
    add a parameter to the query of the authorization URL or cut one
    short: whatever bytes they hold, the query that follows the endpoint
    and its separator has one ["="] for each of its three to six
    parameters and one ["&"] between two of them, and it holds no ["#"],
    no ["?"], no space and no ["/"]. *)
Theorem X10_values_cannot_split_the_query o config state nonce :
  OAuth2Config o = Some config ->
  exists query n,
    run (AuthCodeURL o state nonce)
    = ([], Returns
             (oauth2.AuthURL config
              +:+ (if strings.Contains (oauth2.AuthURL config) "?"
                   then "&" else "?")
              +:+ query))
    /\ 3 <= n <= 6
    /\ count_byte "=" query = n
    /\ S (count_byte "&" query) = n
    /\ count_byte "#" query = 0
    /\ count_byte "?" query = 0
    /\ count_byte " " query = 0
    /\ count_byte "/" query = 0.
Proof.
  intros Hcfg.
  exists (url.Values_Encode (oauth2.authCodeValues config state [oidc.Nonce nonce])),
         (length (oauth2.authCodeValues config state [oidc.Nonce nonce])).
  destruct (query_counts config state nonce)
    as (Heq & Hamp & Hhash & Hq & Hsp & Hsl & Hlen).
  split; [|tauto].
  unfold run, AuthCodeURL. rewrite Hcfg. reflexivity.
Qed.

(** A state that carries ["&"], ["="] and ["#"]: six parameters still. *)
Lemma X10_values_cannot_split_the_query_witness :
  exists query,
    run (AuthCodeURL Sample.plain "x&admin=1#" "n1")
    = ([], Returns ("https://idp.example/auth?" +:+ query))
    /\ count_byte "&" query = 5
    /\ count_byte "=" query = 6
    /\ count_byte "#" query = 0.
Proof.
  destruct (X10_values_cannot_split_the_query Sample.plain Sample.config
              "x&admin=1#" "n1" eq_refl)
    as (query & n & Hrun & _ & Heq & Hamp & Hhash & _).
  assert (Hn : n = 6).
  { assert (Hq : query = url.Values_Encode
                           (oauth2.authCodeValues Sample.config "x&admin=1#"
                              [oidc.Nonce "n1"])).
    { unfold run, AuthCodeURL in Hrun. simpl in Hrun. unfold ret in Hrun.
      injection Hrun as Hrun. by symmetry. }
    rewrite <- Heq, Hq. vm_compute. reflexivity. }
  exists query. split; [exact Hrun|]. lia.
Defined.

(** ** The subject as given *)

(** X4.  The subject is taken as it stands: whenever the resolved claims
    hold a string under [sub], the empty string included, the call
    returns an identity with that very string as its subject.  No check
    for an empty subject is made. *)
Theorem X4_subject_as_given env o code log claims subject :
  run (resolveClaims env o code) = (log, Returns claims) ->
  claims !! "sub" = Some (VString subject) ->
  exists id,
    run (AuthenticateCode env o code) = (log, Returns id)
    /\ Sub id = subject.
Proof.
  intros Hres Hsub. rewrite AuthenticateCode_stages, Hres.
  destruct (identityOf_subject o claims subject Hsub) as (id & -> & Hid).
  by exists id.
Qed.

(** A userinfo response with an empty [sub]. *)
Lemma X4_subject_as_given_witness :
  exists id,
    run (AuthenticateCode
           (UserinfoSample.answering
              (json.Denotes (VObject [("sub", VString "")])))
           (Sample.with_userinfo Sample.plain) "c-alice")
    = ([CallExchange context.TODO "c-alice"; CallParseUnverified "h.alice.s";
        CallGet context.TODO (Sample.token_of (VString "h.alice.s"))
          "https://idp.example/userinfo"],
       Returns id)
    /\ Sub id = "".
Proof.
  apply (X4_subject_as_given
           (UserinfoSample.answering
              (json.Denotes (VObject [("sub", VString "")])))
           (Sample.with_userinfo Sample.plain) "c-alice" _
           (json.store (json.store ∅ Sample.alice) [("sub", VString "")])).
  - vm_compute. reflexivity.
  - vm_compute. reflexivity.
Defined.
